(** * rschange: the training harness [train.py]

    A shallow embedding of the epoch-level control loop of [myTrain]:
    the metric accumulators it owns, the report operation [output], the
    three phase ends ([on_train_epoch_end], [on_validation_epoch_end],
    [test]) and the per-batch steps.

    Conventions.
    - Floating-point values are modelled as rationals [Q]; the only NaN
      the code can produce ([np.mean] of an empty vector) is kept apart
      in the type [Float].
    - Python exceptions are values of [Exn]; a method of [myTrain] is a
      function from the object state to a result and the state reached
      (the state reached is also kept when an exception is raised, as in
      Python).
    - The file system is a finite map from path to file content. *)

From Stdlib Require Import QArith Qround Qabs ZArith Lia Lqa Ascii String.
From stdpp Require Import base option list gmap strings pretty.

Local Open Scope Q_scope.
Local Open Scope nat_scope.

(** ** Numbers *)

(** [x > y] on floats without NaN. *)
Definition Qgtb (x y : Q) : bool := negb (Qle_bool x y).

(** ** Exceptions and results *)

Inductive Exn : Type :=
| IndexError   (* indexing past the end of a tensor or list *)
| ValueError.  (* a library call rejected its arguments *)

Inductive Result (A : Type) : Type :=
| Ok (a : A)
| Raise (e : Exn).
Arguments Ok {A} a.
Arguments Raise {A} e.

(** ** Metric accumulators

    The accumulators are [torchmetrics] objects built from
    [cfg.metric_cfg1] and [cfg.metric_cfg2]; neither the library nor the
    configuration is part of [train.py]. *)
Module Metric.

(** Modelled from the spec: the metric accumulator of section 4.1,
    whose implementation ([torchmetrics]) and constructor parameters
    ([cfg.metric_cfg1], [cfg.metric_cfg2]) are missing.  It keeps
    "running per-class confusion-derived statistics", "sum-like
    confusion statistics": a [C] by [C] table of counts, stored flat,
    entry [t * C + p] counting the pixels of true class [t] predicted
    as class [p]. *)
Record t : Type := mk {
  num_classes : nat;
  confmat : list nat
}.

(** Modelled from the spec: the accumulators "created once at harness
    start" ([myTrain.__init__]), empty. *)
Definition create (C : nat) : t :=
  {| num_classes := C; confmat := replicate (C * C) 0 |}.

(** Modelled from the spec: [reset()] "clears all running state back
    to empty/zero". *)
Definition reset (m : t) : t := create (num_classes m).

Definition bump (cm : list nat) (i : nat) : list nat := alter S i cm.

Definition bincount (cm : list nat) (idx : list nat) : list nat :=
  foldl bump cm idx.

Definition in_range (C : nat) (labels : list nat) : bool :=
  forallb (fun l => l <? C) labels.

(** Modelled from the spec: [update(predicted_labels, true_labels)]
    "ingests one batch's discrete predictions and ground-truth labels
    (same shape)"; labels outside [0, C) are a usage error that the
    accumulator propagates. *)
Definition update (m : t) (preds target : list nat) : Result t :=
  if negb (length preds =? length target) then Raise ValueError
  else if negb (in_range (num_classes m) preds
                && in_range (num_classes m) target) then Raise ValueError
  else
    let C := num_classes m in
    Ok {| num_classes := C;
          confmat := bincount (confmat m)
                       (zip_with (fun p t => t * C + p) preds target) |}.

(** A batch the accumulator accepts: the two checks of [update]. *)
Definition valid_batch (C : nat) (preds target : list nat) : Prop :=
  length preds = length target /\
  in_range C preds = true /\ in_range C target = true.

(** The number of pixels of true class [tc] predicted as class [p]. *)
Definition cell (m : t) (tc p : nat) : nat :=
  default 0 (confmat m !! (tc * num_classes m + p)).

Definition tp (m : t) (c : nat) : nat := cell m c c.

(** False positives of class [c]: pixels predicted as [c] whose true
    class is another one. *)
Definition fp (m : t) (c : nat) : nat :=
  sum_list (map (fun tc => if decide (tc = c) then 0 else cell m tc c)
                (seq 0 (num_classes m))).

(** False negatives of class [c]: pixels of true class [c] predicted
    as another one. *)
Definition fn (m : t) (c : nat) : nat :=
  sum_list (map (fun p => if decide (p = c) then 0 else cell m c p)
                (seq 0 (num_classes m))).

Definition total (m : t) : nat := sum_list (confmat m).

(** Modelled from the spec: a ratio with an empty denominator is the
    "NaN-safe default" 0. *)
Definition safe_divide (n d : nat) : Q :=
  match d with
  | O => 0%Q
  | S _ => (Z.of_nat n # Pos.of_nat d)%Q
  end.

Definition per_class (f : t -> nat -> Q) (m : t) : list Q :=
  map (f m) (seq 0 (num_classes m)).

(** Modelled from the spec: [compute()] of the five metric kinds.
    OA is the "fraction of all pixels correctly classified, all
    classes pooled"; precision, recall, F1 and IoU are per-class
    vectors of [C] values, by their usual formulas over the confusion
    counts: TP/(TP+FP), TP/(TP+FN), 2TP/(2TP+FP+FN) and TP/(TP+FP+FN);
    IoU is the "intersection-over-union between predicted and true
    pixel sets for a class". *)
Definition compute_accuracy (m : t) : Q :=
  safe_divide (sum_list (map (tp m) (seq 0 (num_classes m)))) (total m).

Definition compute_precision : t -> list Q :=
  per_class (fun m c => safe_divide (tp m c) (tp m c + fp m c)).

Definition compute_recall : t -> list Q :=
  per_class (fun m c => safe_divide (tp m c) (tp m c + fn m c)).

Definition compute_f1 : t -> list Q :=
  per_class (fun m c => safe_divide (2 * tp m c) (2 * tp m c + fp m c + fn m c)).

Definition compute_iou : t -> list Q :=
  per_class (fun m c => safe_divide (tp m c) (tp m c + fp m c + fn m c)).

End Metric.

(** ** Methods as state transformers that may raise

    A method over the object state [St]: it returns a value or raises,
    and leaves the state it reached. *)
Definition M (St A : Type) : Type := St -> Result A * St.

Definition ret {St A} (a : A) : M St A := fun s => (Ok a, s).

Definition bind {St A B} (m : M St A) (k : A -> M St B) : M St B :=
  fun s =>
    match m s with
    | (Ok a, s') => k a s'
    | (Raise e, s') => (Raise e, s')
    end.

Definition raise {St A} (e : Exn) : M St A := fun s => (Raise e, s).

Definition lift {St A} (r : Result A) : M St A := fun s => (r, s).

Definition gets {St A} (f : St -> A) : M St A := fun s => (Ok (f s), s).

Definition modify {St} (f : St -> St) : M St unit := fun s => (Ok tt, f s).

Notation "x <- c1 ;; c2" := (bind c1 (fun x => c2))
  (at level 100, c1 at next level, right associativity).
Notation "c1 ;; c2" := (bind c1 (fun _ => c2))
  (at level 100, right associativity).

(** [for x in xs: acc = body(x, acc)] *)
Fixpoint for_fold {St A X} (xs : list X) (acc : A) (body : X -> A -> M St A)
  : M St A :=
  match xs with
  | [] => ret acc
  | x :: xs' => acc' <- body x acc ;; for_fold xs' acc' body
  end.

(** [for x in xs: body(x)] *)
Definition for_each {St X} (xs : list X) (body : X -> M St unit) : M St unit :=
  for_fold xs tt (fun x _ => body x).

(** [l[i]] on a list or a one-dimensional tensor. *)
Definition index {St A} (l : list A) (i : nat) : M St A :=
  match l !! i with
  | Some x => ret x
  | None => raise IndexError
  end.

(** ** numpy *)

(** A Python float: a number, or the NaN that [np.mean] gives for an
    empty vector. *)
Inductive Float : Type :=
| Num (q : Q)
| NaN.

(** [np.rint]: the nearest integer, ties to the even one. *)
Definition rint (x : Q) : Z :=
  let f := Qfloor x in
  match ((x - inject_Z f) ?= (1 # 2))%Q with
  | Lt => f
  | Gt => (f + 1)%Z
  | Eq => if Z.even f then f else (f + 1)%Z
  end.

(** [np.round(x, 4)]: scale by [10^4], round to the nearest integer,
    scale back. *)
Definition np_round4 (x : Q) : Q := (inject_Z (rint (x * 10000)) / 10000)%Q.

Definition np_round (x : Float) : Float :=
  match x with
  | Num q => Num (np_round4 q)
  | NaN => NaN
  end.

Definition Qsum (l : list Q) : Q := foldr Qplus 0%Q l.

(** [np.mean] of a vector. *)
Definition np_mean (l : list Q) : Float :=
  match l with
  | [] => NaN
  | _ :: _ => Num (Qsum l / inject_Z (Z.of_nat (length l)))%Q
  end.

(** ** torch *)

Fixpoint argmax_from (best_i : nat) (best : Q) (i : nat) (l : list Q) : nat :=
  match l with
  | [] => best_i
  | x :: l' =>
      if Qgtb x best then argmax_from i x (S i) l'
      else argmax_from best_i best (S i) l'
  end.

(** [argmax] over the class scores of one pixel: the index of the first
    maximal score; there is no index over an empty dimension. *)
Definition argmax (scores : list Q) : Result nat :=
  match scores with
  | [] => Raise IndexError
  | x :: l => Ok (argmax_from 0 x 1 l)
  end.

(** A ground-truth mask and the class scores of a prediction, one entry
    per pixel. *)
Definition Mask : Type := list nat.
Definition Scores : Type := list (list Q).

(** [preds.argmax(dim=1)], pixel by pixel. *)
Fixpoint argmax_dim1 (preds : Scores) : Result Mask :=
  match preds with
  | [] => Ok []
  | px :: preds' =>
      match argmax px with
      | Ok c =>
          match argmax_dim1 preds' with
          | Ok cs => Ok (c :: cs)
          | Raise e => Raise e
          end
      | Raise e => Raise e
      end
  end.

(** ** os.path *)

Definition nl : string := String "010"%char "".

Fixpoint endswith_sep (s : string) : bool :=
  match s with
  | EmptyString => false
  | String c EmptyString => Ascii.eqb c "/"%char
  | String _ s' => endswith_sep s'
  end.

Definition startswith_sep (s : string) : bool :=
  match s with
  | String c _ => Ascii.eqb c "/"%char
  | EmptyString => false
  end.

(** [os.path.join(a, b)] on a POSIX system. *)
Definition path_join (a b : string) : string :=
  if startswith_sep b then b
  else if String.eqb a "" || endswith_sep a then a +:+ b
  else a +:+ "/" +:+ b.

(** ** prettytable *)

Inductive Cell : Type :=
| CInt (i : nat)
| CStr (s : string)
| CFloat (x : Float).

Record PrettyTable : Type := mkTable {
  field_names : list string;
  rows : list (list Cell)
}.

(** [add_row] rejects a row whose length is not the number of fields. *)
Definition add_row (tbl : PrettyTable) (row : list Cell) : Result PrettyTable :=
  if length row =? length (field_names tbl)
  then Ok {| field_names := field_names tbl; rows := rows tbl ++ [row] |}
  else Raise ValueError.

(** ** The harness object *)

(** The fields of the configuration object that [myTrain] reads. *)
Record Config : Type := mkConfig {
  exp_name : string;
  epoch : nat
}.

(** The five accumulators of one phase. *)
Record PhaseMetrics : Type := mkPhase {
  oa : Metric.t;
  prec : Metric.t;
  recall : Metric.t;
  f1 : Metric.t;
  iou : Metric.t
}.

Inductive Kind : Type := OA | Prec | Recall | F1 | IoU.

Definition get_kind (k : Kind) (p : PhaseMetrics) : Metric.t :=
  match k with
  | OA => oa p | Prec => prec p | Recall => recall p | F1 => f1 p | IoU => iou p
  end.

Definition set_kind (k : Kind) (m : Metric.t) (p : PhaseMetrics) : PhaseMetrics :=
  match k with
  | OA => mkPhase m (prec p) (recall p) (f1 p) (iou p)
  | Prec => mkPhase (oa p) m (recall p) (f1 p) (iou p)
  | Recall => mkPhase (oa p) (prec p) m (f1 p) (iou p)
  | F1 => mkPhase (oa p) (prec p) (recall p) m (iou p)
  | IoU => mkPhase (oa p) (prec p) (recall p) (f1 p) m
  end.

Inductive Phase : Type := Train | Val | Test.

Section Harness.

(** The image tensors are opaque to the harness. *)
Context {Img : Type}.

(** [str(result_table)], the rendering done by [prettytable]. *)
Variable table_str : PrettyTable -> string.

Definition Batch : Type := Img * Img * Mask.

(** The state of a [myTrain] object together with the part of the
    world its methods write to.  [tr], [val] and [test] hold the
    fields [tr_oa] ... [test_iou]. *)
Record myTrain : Type := mkTrain {
  cfg : Config;
  log_dir : option string;
  net : Img -> Img -> Scores;
  loss : Scores -> Mask -> Q;
  tr : PhaseMetrics;
  val : PhaseMetrics;
  test_ : PhaseMetrics;
  test_max_f1 : Q;
  test_loader : list Batch;
  current_epoch : nat;                (* maintained by the trainer *)
  files : gmap string string;         (* the file system *)
  stdout : list string;               (* what [print] wrote *)
  logged : list (string * Float)      (* what [self.log] emitted *)
}.

Definition get_phase (ph : Phase) (s : myTrain) : PhaseMetrics :=
  match ph with Train => tr s | Val => val s | Test => test_ s end.

Definition set_phase (ph : Phase) (p : PhaseMetrics) (s : myTrain) : myTrain :=
  match ph with
  | Train =>
      mkTrain (cfg s) (log_dir s) (net s) (loss s) p (val s) (test_ s)
        (test_max_f1 s) (test_loader s) (current_epoch s) (files s)
        (stdout s) (logged s)
  | Val =>
      mkTrain (cfg s) (log_dir s) (net s) (loss s) (tr s) p (test_ s)
        (test_max_f1 s) (test_loader s) (current_epoch s) (files s)
        (stdout s) (logged s)
  | Test =>
      mkTrain (cfg s) (log_dir s) (net s) (loss s) (tr s) (val s) p
        (test_max_f1 s) (test_loader s) (current_epoch s) (files s)
        (stdout s) (logged s)
  end.

Definition set_test_max_f1 (x : Q) (s : myTrain) : myTrain :=
  mkTrain (cfg s) (log_dir s) (net s) (loss s) (tr s) (val s) (test_ s)
    x (test_loader s) (current_epoch s) (files s) (stdout s) (logged s).

Definition set_current_epoch (n : nat) (s : myTrain) : myTrain :=
  mkTrain (cfg s) (log_dir s) (net s) (loss s) (tr s) (val s) (test_ s)
    (test_max_f1 s) (test_loader s) n (files s) (stdout s) (logged s).

Definition set_files (fs : gmap string string) (s : myTrain) : myTrain :=
  mkTrain (cfg s) (log_dir s) (net s) (loss s) (tr s) (val s) (test_ s)
    (test_max_f1 s) (test_loader s) (current_epoch s) fs (stdout s)
    (logged s).

Definition set_stdout (out : list string) (s : myTrain) : myTrain :=
  mkTrain (cfg s) (log_dir s) (net s) (loss s) (tr s) (val s) (test_ s)
    (test_max_f1 s) (test_loader s) (current_epoch s) (files s) out
    (logged s).

Definition set_logged (lg : list (string * Float)) (s : myTrain) : myTrain :=
  mkTrain (cfg s) (log_dir s) (net s) (loss s) (tr s) (val s) (test_ s)
    (test_max_f1 s) (test_loader s) (current_epoch s) (files s)
    (stdout s) lg.

(** The accumulator fields by their source names. *)
Definition metric (ph : Phase) (k : Kind) (s : myTrain) : Metric.t :=
  get_kind k (get_phase ph s).
Definition set_metric (ph : Phase) (k : Kind) (m : Metric.t) (s : myTrain)
  : myTrain := set_phase ph (set_kind k m (get_phase ph s)) s.

Definition tr_oa := metric Train OA.
Definition tr_prec := metric Train Prec.
Definition tr_recall := metric Train Recall.
Definition tr_f1 := metric Train F1.
Definition tr_iou := metric Train IoU.
Definition val_oa := metric Val OA.
Definition val_prec := metric Val Prec.
Definition val_recall := metric Val Recall.
Definition val_f1 := metric Val F1.
Definition val_iou := metric Val IoU.
Definition test_oa := metric Test OA.
Definition test_prec := metric Test Prec.
Definition test_recall := metric Test Recall.
Definition test_f1 := metric Test F1.
Definition test_iou := metric Test IoU.

(** [myTrain.__init__]: fresh accumulators and the sentinel [-1] for
    the best test F1. *)
Definition init (c : Config) (dir : option string) (C : nat)
    (model : Img -> Img -> Scores) (criterion : Scores -> Mask -> Q)
    (loader : list Batch) : myTrain :=
  let fresh := mkPhase (Metric.create C) (Metric.create C) (Metric.create C)
                 (Metric.create C) (Metric.create C) in
  mkTrain c dir model criterion fresh fresh fresh (-1)%Q loader 0 ∅ [] [].

(** *** Primitive effects *)

Local Abbreviation T := (M myTrain).

(** [self.<metric>(pred, mask)]: one accumulator ingests one batch. *)
Definition metric_call (ph : Phase) (k : Kind) (pred mask : Mask) : T unit :=
  m <- gets (metric ph k) ;;
  m' <- lift (Metric.update m pred mask) ;;
  modify (set_metric ph k m').

(** [self.<metric>.reset()] *)
Definition metric_reset (ph : Phase) (k : Kind) : T unit :=
  modify (fun s => set_metric ph k (Metric.reset (metric ph k s)) s).

(** [self.log(name, value, ...)] *)
Definition log (name : string) (v : Float) : T unit :=
  modify (fun s => set_logged (logged s ++ [(name, v)]) s).

Definition print (line : string) : T unit :=
  modify (fun s => set_stdout (stdout s ++ [line]) s).

(** [open(file_name, "a")] creates the file when it does not exist;
    the directory is assumed to exist. *)
Definition open_append (file_name : string) : T unit :=
  modify (fun s =>
    set_files (<[file_name := default "" (files s !! file_name)]> (files s)) s).

(** [f.write(text)] on a file opened for appending. *)
Definition write (file_name text : string) : T unit :=
  modify (fun s =>
    set_files
      (<[file_name := default "" (files s !! file_name) +:+ text]> (files s)) s).

(** *** [myTrain.forward] *)
Definition forward (x1 x2 : Img) : T Scores :=
  gets (fun s => net s x1 x2).

(** *** [myTrain.output] *)

(** The directory of the report files: [self.log_dir] when it is set
    and not empty, otherwise [work_dirs/<exp_name>]. *)
Definition base_dir_of (s : myTrain) : string :=
  match log_dir s with
  | Some d =>
      if bool_decide (d = "") then path_join "work_dirs" (exp_name (cfg s))
      else d
  | None => path_join "work_dirs" (exp_name (cfg s))
  end.

(** ['epoch:{}/{} {}\n'.format(current_epoch, cfg.epoch, mode)] *)
Definition epoch_header (ep n : nat) (mode : string) : string :=
  "epoch:" +:+ pretty ep +:+ "/" +:+ pretty n +:+ " " +:+ mode +:+ nl.

Definition output (metrics : list (list Q))
    (total_metrics : list (string * Float)) (mode : string) : T unit :=
  let result_table :=
    mkTable ["Class"; "OA"; "Precision"; "Recall"; "F1_Score"; "IOU"] [] in
  m0 <- index metrics 0 ;;
  result_table <-
    for_fold (seq 0 (length m0)) result_table (fun i tbl =>
      item <-
        for_fold (seq 0 (length metrics)) [CInt i; CStr "--"] (fun j item =>
          mj <- index metrics j ;;
          x <- index mj i ;;
          ret (item ++ [CFloat (np_round (Num x))])) ;;
      lift (add_row tbl item)) ;;
  let total := map snd total_metrics in
  let total := map np_round total in
  let total := CStr "total" :: map CFloat total in
  result_table <- lift (add_row result_table total) ;;
  (if bool_decide (mode = "val") || bool_decide (mode = "test")
   then print mode ;; print (table_str result_table)
   else ret tt) ;;
  base_dir <- gets base_dir_of ;;
  file_name <-
    (if bool_decide (mode = "test") then
       let file_name := path_join base_dir "test_metrics_rest.txt" in
       m2 <- index metrics 2 ;;
       change_f1 <- index m2 1 ;;
       best <- gets test_max_f1 ;;
       if Qgtb change_f1 best then
         modify (set_test_max_f1 change_f1) ;;
         ret (path_join base_dir "test_metrics_max.txt")
       else ret file_name
     else ret (path_join base_dir "train_metrics.txt")) ;;
  open_append file_name ;;
  ep <- gets current_epoch ;;
  n <- gets (fun s => epoch (cfg s)) ;;
  write file_name (epoch_header ep n mode) ;;
  write file_name (table_str result_table +:+ nl).

(** *** [myTrain.training_step] *)
Definition training_step (batch : Batch) (batch_idx : nat) : T Q :=
  let '(imgA, imgB, mask) := batch in
  preds <- forward imgA imgB ;;
  loss_ <- gets (fun s => loss s preds mask) ;;
  pred <- lift (argmax_dim1 preds) ;;
  metric_call Train OA pred mask ;;
  metric_call Train Prec pred mask ;;
  metric_call Train Recall pred mask ;;
  metric_call Train F1 pred mask ;;
  metric_call Train IoU pred mask ;;
  log "tr_loss" (Num loss_) ;;
  ret loss_.

(** *** [myTrain.on_train_epoch_end] *)
Definition on_train_epoch_end : T unit :=
  m_prec <- gets (fun s => Metric.compute_precision (tr_prec s)) ;;
  m_recall <- gets (fun s => Metric.compute_recall (tr_recall s)) ;;
  m_f1 <- gets (fun s => Metric.compute_f1 (tr_f1 s)) ;;
  m_iou <- gets (fun s => Metric.compute_iou (tr_iou s)) ;;
  let metrics := [m_prec; m_recall; m_f1; m_iou] in
  acc <- gets (fun s => Metric.compute_accuracy (tr_oa s)) ;;
  let log_ := [("tr_oa", Num acc);
               ("tr_prec", np_mean m_prec);
               ("tr_recall", np_mean m_recall);
               ("tr_f1", np_mean m_f1);
               ("tr_miou", np_mean m_iou)] in
  output metrics log_ "train" ;;
  for_each log_ (fun kv => log kv.1 kv.2) ;;
  m2 <- index metrics 2 ;;
  change_f1 <- index m2 1 ;;
  log "tr_change_f1" (Num change_f1) ;;
  metric_reset Train OA ;;
  metric_reset Train Prec ;;
  metric_reset Train Recall ;;
  metric_reset Train F1 ;;
  metric_reset Train IoU.

(** *** [myTrain.validation_step] *)
Definition validation_step (batch : Batch) (batch_idx : nat) : T Q :=
  let '(imgA, imgB, mask) := batch in
  preds <- forward imgA imgB ;;
  loss_ <- gets (fun s => loss s preds mask) ;;
  pred <- lift (argmax_dim1 preds) ;;
  metric_call Val OA pred mask ;;
  metric_call Val Prec pred mask ;;
  metric_call Val Recall pred mask ;;
  metric_call Val F1 pred mask ;;
  metric_call Val IoU pred mask ;;
  log "val_loss" (Num loss_) ;;
  ret loss_.

(** *** [myTrain.test] *)
Definition test : T Q :=
  loader <- gets test_loader ;;
  for_each loader (fun input =>
    let '(input0, input1, mask_test) := input in
    raw_predictions <- forward input0 input1 ;;
    pred_test <- lift (argmax_dim1 raw_predictions) ;;
    metric_call Test OA pred_test mask_test ;;
    metric_call Test IoU pred_test mask_test ;;
    metric_call Test Prec pred_test mask_test ;;
    metric_call Test F1 pred_test mask_test ;;
    metric_call Test Recall pred_test mask_test) ;;
  m_prec <- gets (fun s => Metric.compute_precision (test_prec s)) ;;
  m_recall <- gets (fun s => Metric.compute_recall (test_recall s)) ;;
  m_f1 <- gets (fun s => Metric.compute_f1 (test_f1 s)) ;;
  m_iou <- gets (fun s => Metric.compute_iou (test_iou s)) ;;
  let metrics_test := [m_prec; m_recall; m_f1; m_iou] in
  acc <- gets (fun s => Metric.compute_accuracy (test_oa s)) ;;
  let log_ := [("test_oa", Num acc);
               ("test_prec", np_mean m_prec);
               ("test_recall", np_mean m_recall);
               ("test_f1", np_mean m_f1);
               ("test_miou", np_mean m_iou)] in
  output metrics_test log_ "test" ;;
  metric_reset Test OA ;;
  metric_reset Test Prec ;;
  metric_reset Test Recall ;;
  metric_reset Test F1 ;;
  metric_reset Test IoU ;;
  m2 <- index metrics_test 2 ;;
  index m2 1.

(** *** [myTrain.on_validation_epoch_end] *)
Definition on_validation_epoch_end : T unit :=
  m_prec <- gets (fun s => Metric.compute_precision (val_prec s)) ;;
  m_recall <- gets (fun s => Metric.compute_recall (val_recall s)) ;;
  m_f1 <- gets (fun s => Metric.compute_f1 (val_f1 s)) ;;
  m_iou <- gets (fun s => Metric.compute_iou (val_iou s)) ;;
  let metrics := [m_prec; m_recall; m_f1; m_iou] in
  acc <- gets (fun s => Metric.compute_accuracy (val_oa s)) ;;
  let log_ := [("val_oa", Num acc);
               ("val_prec", np_mean m_prec);
               ("val_recall", np_mean m_recall);
               ("val_f1", np_mean m_f1);
               ("val_miou", np_mean m_iou)] in
  output metrics log_ "val" ;;
  for_each log_ (fun kv => log kv.1 kv.2) ;;
  m2 <- index metrics 2 ;;
  change_f1 <- index m2 1 ;;
  log "val_change_f1" (Num change_f1) ;;
  metric_reset Val OA ;;
  metric_reset Val Prec ;;
  metric_reset Val Recall ;;
  metric_reset Val F1 ;;
  metric_reset Val IoU ;;
  res1 <- test ;;
  log "test_change_f1" (Num res1).

End Harness.

Arguments myTrain Img : clear implicits.

(** ** Vocabulary of the statements *)

(** The row that [output] builds for class [i]. *)
Definition class_row (metrics : list (list Q)) (i : nat) : list Cell :=
  CInt i :: CStr "--" ::
  map (fun m => CFloat (Num (np_round4 (default 0%Q (m !! i))))) metrics.

Definition total_row (totals : list (string * Float)) : list Cell :=
  CStr "total" :: map (fun kv => CFloat (np_round kv.2)) totals.

Definition report_table (metrics : list (list Q))
    (totals : list (string * Float)) : PrettyTable :=
  mkTable ["Class"; "OA"; "Precision"; "Recall"; "F1_Score"; "IOU"]
    (map (class_row metrics) (seq 0 (length (default [] (metrics !! 0))))
     ++ [total_row totals]).

(** The arguments the phase ends pass to [output]: four per-class
    vectors over [C] classes and five aggregate scalars. *)
Definition well_formed (C : nat) (metrics : list (list Q))
    (totals : list (string * Float)) : Prop :=
  length metrics = 4 /\ Forall (fun m => length m = C) metrics /\
  length totals = 5.

(** [metrics[2][1]], the change-class F1, when it exists. *)
Definition change_f1_of (metrics : list (list Q)) : option Q :=
  metrics !! 2 ≫= (.!! 1).

(** An F1 score lies in [0, 1]. *)
Definition is_f1 (x : Q) : Prop := (0 <= x)%Q /\ (x <= 1)%Q.

(** Which calls of a run pass the gate [f1 > best], from the best so
    far. *)
Fixpoint gating (best : Q) (fs : list Q) : list bool :=
  match fs with
  | [] => []
  | x :: fs' =>
      if Qgtb x best then true :: gating x fs' else false :: gating best fs'
  end.

(** The per-class vectors and the aggregate scalars a phase end
    computes from the accumulators of its phase. *)
Definition phase_metrics (p : PhaseMetrics) : list (list Q) :=
  [Metric.compute_precision (prec p); Metric.compute_recall (recall p);
   Metric.compute_f1 (f1 p); Metric.compute_iou (iou p)].

Definition phase_totals (pre : string) (p : PhaseMetrics)
  : list (string * Float) :=
  [(pre +:+ "oa", Num (Metric.compute_accuracy (oa p)));
   (pre +:+ "prec", np_mean (Metric.compute_precision (prec p)));
   (pre +:+ "recall", np_mean (Metric.compute_recall (recall p)));
   (pre +:+ "f1", np_mean (Metric.compute_f1 (f1 p)));
   (pre +:+ "miou", np_mean (Metric.compute_iou (iou p)))].

(** Feeding a list of (prediction, ground truth) batches in order. *)
Fixpoint feed (m : Metric.t) (batches : list (Mask * Mask)) : Result Metric.t :=
  match batches with
  | [] => Ok m
  | (pred, mask) :: rest =>
      match Metric.update m pred mask with
      | Ok m' => feed m' rest
      | Raise e => Raise e
      end
  end.

Section Vocabulary.

Context {Img : Type}.
Variable table_str : PrettyTable -> string.
Local Abbreviation T := (M (myTrain Img)).

Definition max_file (s : myTrain Img) : string :=
  path_join (base_dir_of s) "test_metrics_max.txt".
Definition rest_file (s : myTrain Img) : string :=
  path_join (base_dir_of s) "test_metrics_rest.txt".
Definition train_file (s : myTrain Img) : string :=
  path_join (base_dir_of s) "train_metrics.txt".

(** The state after the [print] calls of [output]. *)
Definition printed (mode : string) (tbl : PrettyTable) (s : myTrain Img)
  : myTrain Img :=
  if bool_decide (mode = "val") || bool_decide (mode = "test")
  then set_stdout (stdout s ++ [mode; table_str tbl]) s
  else s.

(** The state after the header and the table were appended to
    [file_name]. *)
Definition report_written (file_name mode : string) (tbl : PrettyTable)
    (s : myTrain Img) : myTrain Img :=
  set_files
    (<[file_name :=
         (default "" (files s !! file_name)
          +:+ epoch_header (current_epoch s) (epoch (cfg s)) mode)
         +:+ (table_str tbl +:+ nl)]> (files s)) s.

(** The body of the row loop of [output] (lines 87-91). *)
Definition row_body (metrics : list (list Q)) (i : nat) (tbl : PrettyTable)
  : T PrettyTable :=
  item <-
    for_fold (seq 0 (length metrics)) [CInt i; CStr "--"] (fun j item =>
      mj <- index metrics j ;;
      x <- index mj i ;;
      ret (item ++ [CFloat (np_round (Num x))])) ;;
  lift (add_row tbl item).

(** The choice of the report file in [output] (lines 107-113). *)
Definition choose_file (metrics : list (list Q)) (mode base_dir : string)
  : T string :=
  if bool_decide (mode = "test") then
    let file_name := path_join base_dir "test_metrics_rest.txt" in
    m2 <- index metrics 2 ;;
    change_f1 <- index m2 1 ;;
    best <- gets test_max_f1 ;;
    if Qgtb change_f1 best then
      modify (set_test_max_f1 change_f1) ;;
      ret (path_join base_dir "test_metrics_max.txt")
    else ret file_name
  else ret (path_join base_dir "train_metrics.txt").

(** A method leaves the best test F1 at [b] when it finds it there,
    whether it returns or raises. *)
Definition keeps_best {A} (b : Q) (m : T A) : Prop :=
  forall s, test_max_f1 s = b -> test_max_f1 (m s).2 = b.

(** All accumulators of the harness are over [C] classes. *)
Definition classes_ok (C : nat) (s : myTrain Img) : Prop :=
  forall ph k, Metric.num_classes (metric ph k s) = C.

(** All five accumulators of a phase are empty. *)
Definition phase_reset (C : nat) (ph : Phase) (s : myTrain Img) : Prop :=
  forall k, metric ph k s = Metric.create C.

(** The (prediction, ground truth) pair a batch gives under a model. *)
Definition predict (model : Img -> Img -> Scores) (b : Batch)
  : Result (Mask * Mask) :=
  let '(x1, x2, mask) := b in
  match argmax_dim1 (model x1 x2) with
  | Ok pred => Ok (pred, mask)
  | Raise e => Raise e
  end.

(** A batch the model labels and accumulators over [C] classes
    accept. *)
Definition batch_ok (C : nat) (model : Img -> Img -> Scores) (b : Batch)
  : Prop :=
  exists pred mask,
    predict model b = Ok (pred, mask) /\ Metric.valid_batch C pred mask.

Definition loader_ok (C : nat) (s : myTrain Img) : Prop :=
  Forall (batch_ok C (net s)) (test_loader s).

(** [pairs] are the predictions and ground truths of the batches of
    [loader], in order. *)
Definition predictions (model : Img -> Img -> Scores) (loader : list Batch)
    (pairs : list (Mask * Mask)) : Prop :=
  Forall2 (fun b pm => predict model b = Ok pm) loader pairs.

(** [s'] is [s] with the accumulators of phase [ph] fed [pairs]. *)
Definition fed (ph : Phase) (pairs : list (Mask * Mask))
    (s s' : myTrain Img) : Prop :=
  (forall k, feed (metric ph k s) pairs = Ok (metric ph k s')) /\
  s' = set_phase ph (get_phase ph s') s.

(** [s1] differs from [s] at most in what a report may touch: the
    files, the console and the best test F1. *)
Definition report_effects (s s1 : myTrain Img) : Prop :=
  s1 = set_files (files s1)
         (set_stdout (stdout s1) (set_test_max_f1 (test_max_f1 s1) s)).

(** The body of the loop of [test] (lines 207-215). *)
Definition test_batch (input : Batch) : T unit :=
  let '(input0, input1, mask_test) := input in
  raw_predictions <- forward input0 input1 ;;
  pred_test <- lift (argmax_dim1 raw_predictions) ;;
  metric_call Test OA pred_test mask_test ;;
  metric_call Test IoU pred_test mask_test ;;
  metric_call Test Prec pred_test mask_test ;;
  metric_call Test F1 pred_test mask_test ;;
  metric_call Test Recall pred_test mask_test.

(** [s'] is [s] with the five accumulators of phase [ph] reset. *)
Definition reset_phase (ph : Phase) (s : myTrain Img) : myTrain Img :=
  let p := get_phase ph s in
  set_phase ph
    (mkPhase (Metric.reset (oa p)) (Metric.reset (prec p))
       (Metric.reset (recall p)) (Metric.reset (f1 p))
       (Metric.reset (iou p))) s.

(** The trainer's run of the test reports over some epochs: at epoch
    [k] the embedded test pass reports that epoch's metrics; the
    result tells, epoch by epoch, whether the content of the "max"
    file changed. *)
Fixpoint report_epochs (k : nat)
    (inputs : list (list (list Q) * list (string * Float)))
  : T (list bool) :=
  match inputs with
  | [] => ret []
  | (metrics, totals) :: inputs' =>
      modify (set_current_epoch k) ;;
      before <- gets (fun s => files s !! max_file s) ;;
      output table_str metrics totals "test" ;;
      after <- gets (fun s => files s !! max_file s) ;;
      ws <- report_epochs (S k) inputs' ;;
      ret (bool_decide (before <> after) :: ws)
  end.

End Vocabulary.

(** ** A small harness to run the methods on

    Two classes, four-pixel images, a model that always answers the
    labels [0,1,1,0], one test batch with ground truth [0,1,0,0]. *)

Definition sample_cfg : Config := mkConfig "exp" 100.

Definition sample_net (x1 x2 : unit) : Scores :=
  [[1; 0]; [0; 1]; [0; 1]; [1; 0]]%Q.

Definition sample_loss (preds : Scores) (mask : Mask) : Q := (1 # 4)%Q.

Definition sample_batch : unit * unit * Mask := (tt, tt, [0; 1; 0; 0]).

Definition sample : myTrain unit :=
  init sample_cfg (Some "logs") 2 sample_net sample_loss [sample_batch].

(** A harness over a single class. *)
Definition sample_one_class : myTrain unit :=
  init sample_cfg (Some "logs") 1 (fun _ _ => [[1]; [1]]%Q) sample_loss
    [(tt, tt, [0; 0])].

Definition sample_table_str (tbl : PrettyTable) : string := "<table>".

(** Per-class vectors over two classes with change-class F1 [x]. *)
Definition sample_metrics (x : Q) : list (list Q) :=
  [[1; 1]; [1; 1]; [1; x]; [1; 1]]%Q.

Definition sample_totals : list (string * Float) :=
  [("test_oa", Num 1); ("test_prec", Num 1); ("test_recall", Num 1);
   ("test_f1", Num 1); ("test_miou", Num 1)].

(** ** Invariants of the methods *)

(** A method relates the state it starts from to the state it leaves,
    whether it returns or raises, by [R]. *)
Definition preserves {St A : Type} (R : relation St) (m : M St A) : Prop :=
  forall s, R s (m s).2.

Section Invariants.

Context {Img : Type}.

(** The parts of the harness no method assigns. *)
Definition same_setup (s s' : myTrain Img) : Prop :=
  cfg s' = cfg s /\ log_dir s' = log_dir s /\ net s' = net s /\
  loss s' = loss s /\ test_loader s' = test_loader s /\
  current_epoch s' = current_epoch s.

Definition same_classes (s s' : myTrain Img) : Prop :=
  forall ph k,
    Metric.num_classes (metric ph k s') = Metric.num_classes (metric ph k s).

Definition best_grows (s s' : myTrain Img) : Prop :=
  (test_max_f1 s <= test_max_f1 s')%Q.

(** Every file that exists still exists and has its old content as a
    prefix. *)
Definition files_grow (s s' : myTrain Img) : Prop :=
  forall p c, files s !! p = Some c ->
    exists suffix, files s' !! p = Some (c +:+ suffix).

Definition streams_grow (s s' : myTrain Img) : Prop :=
  logged s `prefix_of` logged s' /\ stdout s `prefix_of` stdout s'.

Definition evolves (s s' : myTrain Img) : Prop :=
  same_setup s s' /\ same_classes s s' /\ best_grows s s' /\
  files_grow s s' /\ streams_grow s s'.

(** [s'] differs from [s] at most in the accumulators of phase [ph] and
    in the metric stream. *)
Definition only_phase (ph : Phase) (s s' : myTrain Img) : Prop :=
  s' = set_logged (logged s') (set_phase ph (get_phase ph s') s).

(** A call of a method of the harness by the trainer. *)
Inductive Call : Type :=
| call_output (metrics : list (list Q)) (totals : list (string * Float))
    (mode : string)
| call_training_step (batch : @Batch Img) (batch_idx : nat)
| call_validation_step (batch : @Batch Img) (batch_idx : nat)
| call_on_train_epoch_end
| call_on_validation_epoch_end
| call_test.

Definition do_call (table_str : PrettyTable -> string) (c : Call)
  : M (myTrain Img) unit :=
  match c with
  | call_output metrics totals mode => output table_str metrics totals mode
  | call_training_step batch i => training_step batch i ;; ret tt
  | call_validation_step batch i => validation_step batch i ;; ret tt
  | call_on_train_epoch_end => on_train_epoch_end table_str
  | call_on_validation_epoch_end => on_validation_epoch_end table_str
  | call_test => test table_str ;; ret tt
  end.

(** The state after a history of calls, each started where the previous
    one stopped, whether it returned or raised. *)
Definition after_calls (table_str : PrettyTable -> string)
    (cs : list Call) (s : myTrain Img) : myTrain Img :=
  foldl (fun s c => (do_call table_str c s).2) s cs.

End Invariants.

(** A harness whose only test batch carries a label outside the two
    classes. *)
Definition sample_bad_loader : myTrain unit :=
  init sample_cfg (Some "logs") 2 sample_net sample_loss
    [(tt, tt, [0; 1; 2; 0])].

(** [s'] differs from [s] at most in the accumulators of phase [ph]. *)
Definition only_accumulators {Img : Type} (ph : Phase) (s s' : myTrain Img)
  : Prop :=
  s' = set_phase ph (get_phase ph s') s.

(** * Properties *)

(** ** Numbers *)

Lemma Qgtb_true (x y : Q) : Qgtb x y = true <-> (y < x)%Q.
Proof.
  unfold Qgtb. rewrite negb_true_iff, <- not_true_iff_false, Qle_bool_iff.
  split; [apply Qnot_le_lt | apply Qlt_not_le].
Qed.

Lemma Qgtb_false (x y : Q) : Qgtb x y = false <-> (x <= y)%Q.
Proof.
  unfold Qgtb. rewrite negb_false_iff, Qle_bool_iff. reflexivity.
Qed.

(** ** The accumulator *)

Module MetricFacts.
Import Metric.

(** Entry [k] of the table after counting [idx]: the old count plus
    the number of occurrences of [k]. *)
Lemma bincount_lookup (idx : list nat) (cm : list nat) (k : nat) :
  bincount cm idx !! k = (fun n => n + count_occ Nat.eq_dec idx k) <$> cm !! k.
Proof.
  revert cm. induction idx as [|i idx IH]; intros cm; simpl.
  - destruct (cm !! k); simpl; f_equal; lia.
  - unfold bincount in IH. rewrite IH. unfold bump.
    destruct (Nat.eq_dec i k) as [->|Hne].
    + rewrite list_lookup_alter_eq. destruct (cm !! k); simpl; f_equal; lia.
    + rewrite list_lookup_alter_ne by done. reflexivity.
Qed.

Lemma bincount_comm (cm a b : list nat) :
  bincount (bincount cm a) b = bincount (bincount cm b) a.
Proof.
  apply list_eq; intros k. rewrite !bincount_lookup.
  destruct (cm !! k); simpl; f_equal; lia.
Qed.

Lemma bincount_length (idx cm : list nat) :
  length (bincount cm idx) = length cm.
Proof.
  revert cm. induction idx as [|i idx IH]; intros cm; simpl; [done|].
  unfold bincount in IH. rewrite IH. unfold bump. apply length_alter.
Qed.

Lemma update_valid (m : t) (preds target : list nat) :
  valid_batch (num_classes m) preds target ->
  update m preds target =
    Ok (mk (num_classes m)
          (bincount (confmat m)
             (zip_with (fun p tc => tc * num_classes m + p) preds target))).
Proof.
  intros (Hlen & Hp & Ht). unfold update.
  rewrite Hlen, Nat.eqb_refl, Hp, Ht. reflexivity.
Qed.

Lemma update_invalid (m : t) (preds target : list nat) :
  ~ valid_batch (num_classes m) preds target ->
  update m preds target = Raise ValueError.
Proof.
  intros Hn. unfold update.
  destruct (length preds =? length target) eqn:Hlen; simpl; [|done].
  destruct (in_range (num_classes m) preds) eqn:Hp; simpl; [|done].
  destruct (in_range (num_classes m) target) eqn:Ht; simpl; [|done].
  exfalso. apply Hn. apply Nat.eqb_eq in Hlen. by repeat split.
Qed.

End MetricFacts.

(** The confusion counts of the scenario batch: predictions [0,1,1,0]
    against ground truth [0,1,0,0]. *)
Example scenario_counts :
  Metric.update (Metric.create 2) [0; 1; 1; 0] [0; 1; 0; 0]
  = Ok (Metric.mk 2 [2; 1; 0; 1]).
Proof. reflexivity. Qed.

(** C3, as amended: a 2-class accumulator fed the single batch with
    predictions [0,1,1,0] and ground truth [0,1,0,0] accepts it, and
    [compute()] then gives overall accuracy 3/4, and for class 1
    precision 1/2 (two pixels predicted as class 1, one of them rightly),
    recall 1 (the only class-1 pixel is found), F1 2/3 (within 0.001 of
    0.667) and IoU 1/2. *)
Theorem scenario_two_class_batch :
  exists m : Metric.t,
    Metric.update (Metric.create 2) [0; 1; 1; 0] [0; 1; 0; 0] = Ok m /\
    (Metric.compute_accuracy m == 3 # 4)%Q /\
    (exists p, Metric.compute_precision m !! 1 = Some p /\ (p == 1 # 2)%Q) /\
    (exists r, Metric.compute_recall m !! 1 = Some r /\ (r == 1)%Q) /\
    (exists f, Metric.compute_f1 m !! 1 = Some f /\ (f == 2 # 3)%Q /\
               (Qabs (f - (667 # 1000)) < 1 # 1000)%Q) /\
    (exists u, Metric.compute_iou m !! 1 = Some u /\ (u == 1 # 2)%Q).
Proof.
  eexists. split; [reflexivity|].
  split; [reflexivity|].
  split; [eexists; split; [reflexivity|reflexivity]|].
  split; [eexists; split; [reflexivity|reflexivity]|].
  split; [eexists; split; [reflexivity|split; reflexivity]|].
  eexists; split; reflexivity.
Qed.

(** C3, as stated, fails: no accumulator state reached from that batch
    has class-1 precision 1 and class-1 recall 1/2. *)
Lemma scenario_precision_recall_swapped :
  ~ exists m : Metric.t,
      Metric.update (Metric.create 2) [0; 1; 1; 0] [0; 1; 0; 0] = Ok m /\
      (exists p, Metric.compute_precision m !! 1 = Some p /\ (p == 1)%Q) /\
      (exists r, Metric.compute_recall m !! 1 = Some r /\ (r == 1 # 2)%Q).
Proof.
  intros (m & Hm & (p & Hp & Hp1) & _).
  rewrite scenario_counts in Hm. injection Hm as <-.
  vm_compute in Hp. injection Hp as <-. discriminate Hp1.
Qed.

(** C7: for two valid batches, feeding them in either order into a
    freshly reset accumulator succeeds and leaves the same accumulator,
    so all five [compute()] results are identical. *)
Theorem update_order_irrelevant (m0 : Metric.t) (p1 t1 p2 t2 : list nat) :
  Metric.valid_batch (Metric.num_classes m0) p1 t1 ->
  Metric.valid_batch (Metric.num_classes m0) p2 t2 ->
  exists m12 m21 a b : Metric.t,
    Metric.update (Metric.reset m0) p1 t1 = Ok a /\
    Metric.update a p2 t2 = Ok m12 /\
    Metric.update (Metric.reset m0) p2 t2 = Ok b /\
    Metric.update b p1 t1 = Ok m21 /\
    Metric.compute_accuracy m12 = Metric.compute_accuracy m21 /\
    Metric.compute_precision m12 = Metric.compute_precision m21 /\
    Metric.compute_recall m12 = Metric.compute_recall m21 /\
    Metric.compute_f1 m12 = Metric.compute_f1 m21 /\
    Metric.compute_iou m12 = Metric.compute_iou m21.
Proof.
  intros H1 H2.
  do 4 eexists.
  split; [apply MetricFacts.update_valid; exact H1|].
  split; [apply MetricFacts.update_valid; exact H2|].
  split; [apply MetricFacts.update_valid; exact H2|].
  split; [apply MetricFacts.update_valid; exact H1|].
  simpl. rewrite MetricFacts.bincount_comm. repeat split; reflexivity.
Qed.

Lemma update_order_irrelevant_witness :
  Metric.valid_batch 2 [0; 1; 1; 0] [0; 1; 0; 0] /\
  Metric.valid_batch 2 [1; 1] [0; 1] /\
  exists m12 m21 a b : Metric.t,
    Metric.update (Metric.reset (Metric.create 2)) [0; 1; 1; 0] [0; 1; 0; 0] = Ok a /\
    Metric.update a [1; 1] [0; 1] = Ok m12 /\
    Metric.update (Metric.reset (Metric.create 2)) [1; 1] [0; 1] = Ok b /\
    Metric.update b [0; 1; 1; 0] [0; 1; 0; 0] = Ok m21 /\
    Metric.compute_accuracy m12 = Metric.compute_accuracy m21 /\
    Metric.compute_precision m12 = Metric.compute_precision m21 /\
    Metric.compute_recall m12 = Metric.compute_recall m21 /\
    Metric.compute_f1 m12 = Metric.compute_f1 m21 /\
    Metric.compute_iou m12 = Metric.compute_iou m21.
Proof.
  split; [repeat split|].
  split; [repeat split|].
  apply (update_order_irrelevant (Metric.create 2)); repeat split.
Defined.

(** ** The monad *)

Section MonadFacts.

Context {St : Type}.

Lemma bind_ok {A B} (m : M St A) (k : A -> M St B) s a s' :
  m s = (Ok a, s') -> bind m k s = k a s'.
Proof. intros H. unfold bind. rewrite H. reflexivity. Qed.

Lemma bind_raise {A B} (m : M St A) (k : A -> M St B) s e s' :
  m s = (Raise e, s') -> bind m k s = (Raise e, s').
Proof. intros H. unfold bind. rewrite H. reflexivity. Qed.

Lemma bind_ext {A B} (m : M St A) (k k' : A -> M St B) s :
  (forall a s', k a s' = k' a s') -> bind m k s = bind m k' s.
Proof.
  intros H. unfold bind. destruct (m s) as [[a|e] s']; [apply H|done].
Qed.

Lemma index_ok {A} (l : list A) i x (s : St) :
  l !! i = Some x -> index l i s = (Ok x, s).
Proof. intros H. unfold index. rewrite H. reflexivity. Qed.

Lemma index_raise {A} (l : list A) i (s : St) :
  length l <= i -> index l i s = (Raise IndexError, s).
Proof.
  intros H. unfold index. rewrite lookup_ge_None_2 by done. reflexivity.
Qed.

End MonadFacts.

(** ** Paths *)

Lemma append_inj_r (a x y : string) : a +:+ x = a +:+ y -> x = y.
Proof.
  induction a as [|c a IH]; simpl; intros H; [done|].
  injection H as H. by apply IH.
Qed.

Lemma append_nonempty (a x : string) : a +:+ x = a -> x = "".
Proof.
  induction a as [|c a IH]; simpl; intros H; [done|].
  injection H as H. by apply IH.
Qed.

(** Distinct relative names stay distinct under any directory. *)
Lemma path_join_inj (d x y : string) :
  startswith_sep x = false -> startswith_sep y = false ->
  path_join d x = path_join d y -> x = y.
Proof.
  intros Hx Hy. unfold path_join. rewrite Hx, Hy.
  destruct (_ || _); intros H.
  - by apply append_inj_r in H.
  - apply append_inj_r in H. by injection H.
Qed.

(** ** The report operation *)

Section OutputFacts.

Context {Img : Type}.
Variable table_str : PrettyTable -> string.
Local Abbreviation St := (myTrain Img).

Lemma max_rest_distinct (s : St) : max_file s <> rest_file s.
Proof.
  unfold max_file, rest_file. intros H.
  apply path_join_inj in H; [discriminate H|reflexivity|reflexivity].
Qed.

Lemma item_loop (p r f u : list Q) (i : nat) (s : St) :
  i < length p -> i < length r -> i < length f -> i < length u ->
  for_fold (seq 0 (length [p; r; f; u])) [CInt i; CStr "--"] (fun j item =>
          mj <- index [p; r; f; u] j ;;
          x <- index mj i ;;
          ret (item ++ [CFloat (np_round (Num x))])) s
  = (Ok (class_row [p; r; f; u] i), s).
Proof.
  intros Hp Hr Hf Hu.
  apply lookup_lt_is_Some in Hp as [xp Hp], Hr as [xr Hr],
    Hf as [xf Hf], Hu as [xu Hu].
  unfold class_row. simpl. unfold bind, index at 1 3 5 7. simpl.
  unfold index. rewrite Hp, Hr, Hf, Hu. simpl. reflexivity.
Qed.

Lemma rows_loop (p r f u : list Q) (C n a : nat) (tbl : PrettyTable) (s : St) :
  length p = C -> length r = C -> length f = C -> length u = C ->
  a + n <= C -> length (field_names tbl) = 6 ->
  for_fold (seq a n) tbl (row_body [p; r; f; u]) s
  = (Ok (mkTable (field_names tbl)
           (rows tbl ++ map (class_row [p; r; f; u]) (seq a n))), s).
Proof.
  intros Hp Hr Hf Hu. revert a tbl.
  induction n as [|n IH]; intros a tbl Ha Hn; simpl.
  - rewrite app_nil_r. destruct tbl; reflexivity.
  - erewrite bind_ok; cycle 1.
    { unfold row_body. erewrite bind_ok by (apply item_loop; lia).
      unfold lift, add_row. simpl. rewrite Hn. simpl. reflexivity. }
    rewrite IH by (simpl; (lia || done)). simpl.
    rewrite <- app_assoc. reflexivity.
Qed.

Lemma printed_base_dir mode tbl (s : St) :
  base_dir_of (printed table_str mode tbl s) = base_dir_of s.
Proof. unfold printed. destruct (_ || _); reflexivity. Qed.

Lemma printed_best mode tbl (s : St) :
  test_max_f1 (printed table_str mode tbl s) = test_max_f1 s.
Proof. unfold printed. destruct (_ || _); reflexivity. Qed.

(** [output] on well-formed arguments: the table is built and printed
    without error; what remains is the choice of the file and the two
    writes. *)
Lemma output_prefix (metrics : list (list Q)) totals C mode (s : St) :
  well_formed C metrics totals ->
  output table_str metrics totals mode s
  = (file_name <- choose_file metrics mode (base_dir_of s) ;;
     modify (report_written table_str file_name mode
               (report_table metrics totals)))
      (printed table_str mode (report_table metrics totals) s).
Proof.
  intros Hwf. pose proof Hwf as (Hlen & Hall & Htot). unfold output.
  destruct metrics as [|p [|r [|f [|u [|]]]]]; try discriminate Hlen.
  apply Forall_cons in Hall as [Hp Hall]. apply Forall_cons in Hall as [Hr Hall].
  apply Forall_cons in Hall as [Hf Hall]. apply Forall_cons in Hall as [Hu _].
  erewrite bind_ok by (apply index_ok; reflexivity).
  erewrite bind_ok by (apply (rows_loop p r f u C); simpl; (lia || done)).
  erewrite bind_ok; cycle 1.
  { unfold lift, add_row. simpl. rewrite !length_map, Htot. simpl. reflexivity. }
  replace (mkTable _ _) with (report_table [p; r; f; u] totals); cycle 1.
  { unfold report_table, total_row. simpl. rewrite Hp.
    rewrite <- !list_fmap_compose. reflexivity. }
  set (tbl := report_table [p; r; f; u] totals).
  erewrite bind_ok with (s' := printed table_str mode tbl s) (a := tt); cycle 1.
  { unfold printed. destruct (_ || _); [|reflexivity].
    unfold bind, print, modify, set_stdout. simpl.
    rewrite <- app_assoc. reflexivity. }
  erewrite bind_ok by (unfold gets; rewrite printed_base_dir; reflexivity).
  apply bind_ext. intros file_name s1.
  unfold bind, open_append, write, gets, modify, report_written, set_files.
  simpl. rewrite !lookup_insert_eq, !insert_insert_eq. simpl. reflexivity.
Qed.

(** The three outcomes of the choice of the file. *)
Lemma choose_file_other metrics mode base (s : St) :
  mode <> "test" ->
  choose_file metrics mode base s = (Ok (path_join base "train_metrics.txt"), s).
Proof.
  intros H. unfold choose_file. rewrite bool_decide_eq_false_2 by done.
  reflexivity.
Qed.

Lemma choose_file_test metrics base x (s : St) :
  change_f1_of metrics = Some x ->
  choose_file metrics "test" base s
  = if Qgtb x (test_max_f1 s)
    then (Ok (path_join base "test_metrics_max.txt"), set_test_max_f1 x s)
    else (Ok (path_join base "test_metrics_rest.txt"), s).
Proof.
  unfold change_f1_of. intros H.
  destruct (metrics !! 2) as [m2|] eqn:H2; simpl in H; [|discriminate H].
  unfold choose_file. simpl.
  erewrite bind_ok by (apply index_ok; exact H2).
  erewrite bind_ok by (apply index_ok; exact H).
  unfold bind, gets. destruct (Qgtb x (test_max_f1 s)); reflexivity.
Qed.

Lemma choose_file_no_change_class metrics base (s : St) :
  change_f1_of metrics = None ->
  choose_file metrics "test" base s = (Raise IndexError, s).
Proof.
  unfold change_f1_of. intros H. unfold choose_file. simpl.
  destruct (metrics !! 2) as [m2|] eqn:H2; simpl in H.
  - erewrite bind_ok by (apply index_ok; exact H2).
    apply bind_raise. unfold index. rewrite H. reflexivity.
  - apply bind_raise. unfold index. rewrite H2. reflexivity.
Qed.

Lemma output_other metrics totals C mode (s : St) :
  well_formed C metrics totals -> mode <> "test" ->
  output table_str metrics totals mode s
  = (Ok tt,
     report_written table_str (train_file s) mode (report_table metrics totals)
       (printed table_str mode (report_table metrics totals) s)).
Proof.
  intros Hwf Hmode. rewrite (output_prefix _ _ C) by done.
  erewrite bind_ok by (apply choose_file_other; exact Hmode).
  reflexivity.
Qed.

Lemma output_test metrics totals C x (s : St) :
  well_formed C metrics totals -> change_f1_of metrics = Some x ->
  output table_str metrics totals "test" s
  = (Ok tt,
     let tbl := report_table metrics totals in
     if Qgtb x (test_max_f1 s)
     then report_written table_str (max_file s) "test" tbl
            (set_test_max_f1 x (printed table_str "test" tbl s))
     else report_written table_str (rest_file s) "test" tbl
            (printed table_str "test" tbl s)).
Proof.
  intros Hwf Hx. rewrite (output_prefix _ _ C) by done.
  unfold bind. rewrite (choose_file_test _ _ x) by done.
  rewrite printed_best. destruct (Qgtb x (test_max_f1 s)); reflexivity.
Qed.

Lemma output_test_raise metrics totals C (s : St) :
  well_formed C metrics totals -> change_f1_of metrics = None ->
  output table_str metrics totals "test" s
  = (Raise IndexError,
     printed table_str "test" (report_table metrics totals) s).
Proof.
  intros Hwf Hx. rewrite (output_prefix _ _ C) by done.
  apply bind_raise. by apply choose_file_no_change_class.
Qed.

Lemma change_f1_defined C metrics totals :
  well_formed C metrics totals -> 2 <= C -> is_Some (change_f1_of metrics).
Proof.
  intros (Hlen & Hall & _) HC. unfold change_f1_of.
  destruct (metrics !! 2) as [m2|] eqn:H2.
  - simpl. apply lookup_lt_is_Some.
    rewrite Forall_lookup in Hall. rewrite (Hall _ _ H2). lia.
  - apply lookup_ge_None in H2. lia.
Qed.

Lemma change_f1_undefined C metrics totals :
  well_formed C metrics totals -> C < 2 -> change_f1_of metrics = None.
Proof.
  intros (Hlen & Hall & _) HC. unfold change_f1_of.
  destruct (metrics !! 2) as [m2|] eqn:H2; [|done].
  simpl. apply lookup_ge_None.
  rewrite Forall_lookup in Hall. rewrite (Hall _ _ H2). lia.
Qed.

End OutputFacts.

(** ** Rounding *)

Lemma rint_close (x : Q) :
  (Qabs (x - inject_Z (rint x)) <= 1 # 2)%Q.
Proof.
  unfold rint. pose proof (Qfloor_le x) as Hlo. pose proof (Qlt_floor x) as Hhi.
  rewrite inject_Z_plus in Hhi. change (inject_Z 1) with 1%Q in Hhi.
  apply Qabs_Qle_condition.
  destruct (Qcompare_spec (x - inject_Z (Qfloor x)) (1 # 2)) as [He|Hl|Hg];
    [destruct (Z.even (Qfloor x))| |];
    rewrite ?inject_Z_plus; change (inject_Z 1) with 1%Q;
    generalize dependent (inject_Z (Qfloor x)); intros y; intros; split; lra.
Qed.

(** [np_round4] returns a multiple of [10^-4] within half a unit in the
    fourth decimal of its argument. *)
Lemma np_round4_spec (x : Q) :
  (exists z : Z, np_round4 x == z # 10000)%Q /\
  (Qabs (x - np_round4 x) <= 1 # 20000)%Q.
Proof.
  split.
  - exists (rint (x * 10000)). unfold np_round4.
    rewrite (Qmake_Qdiv _ 10000). reflexivity.
  - unfold np_round4. pose proof (rint_close (x * 10000)) as H.
    apply Qabs_Qle_condition in H. apply Qabs_Qle_condition.
    generalize dependent (inject_Z (rint (x * 10000))). intros r [H1 H2].
    assert (r / 10000 == r * (1 # 10000))%Q as -> by reflexivity.
    split; lra.
Qed.

(** ** Which file a report goes to *)

Section ReportFiles.

Context {Img : Type}.
Variable table_str : PrettyTable -> string.
Local Abbreviation St := (myTrain Img).

(** C1, as amended: a call of [output] in test mode on well-formed
    metrics with change-class F1 [x] succeeds and appends the report
    to exactly one file.  When [x] strictly exceeds the best test F1
    so far, that file is the "max" file, the "rest" file is left as it
    was, and the best becomes [x]; otherwise the file is the "rest"
    file, and the "max" file and the best are left as they were. *)
Theorem test_report_goes_to_one_file
    (metrics : list (list Q)) (totals : list (string * Float))
    (C : nat) (x : Q) (s : St) :
  well_formed C metrics totals ->
  change_f1_of metrics = Some x ->
  exists s' : St,
    output table_str metrics totals "test" s = (Ok tt, s') /\
    let entry := epoch_header (current_epoch s) (epoch (cfg s)) "test" in
    let tbl := table_str (report_table metrics totals) +:+ nl in
    ((test_max_f1 s < x)%Q ->
       files s' =
         <[max_file s := (default "" (files s !! max_file s) +:+ entry) +:+ tbl]>
           (files s) /\
       files s' !! rest_file s = files s !! rest_file s /\
       test_max_f1 s' = x) /\
    ((x <= test_max_f1 s)%Q ->
       files s' =
         <[rest_file s := (default "" (files s !! rest_file s) +:+ entry) +:+ tbl]>
           (files s) /\
       files s' !! max_file s = files s !! max_file s /\
       test_max_f1 s' = test_max_f1 s).
Proof.
  intros Hwf Hx. eexists. split; [apply (output_test _ _ _ C x); done|].
  cbv zeta. split; intros Hcmp.
  - apply Qgtb_true in Hcmp. rewrite Hcmp.
    unfold report_written, printed; simpl.
    split; [reflexivity|]. split; [|reflexivity].
    apply lookup_insert_ne, max_rest_distinct.
  - apply Qgtb_false in Hcmp. rewrite Hcmp.
    unfold report_written, printed; simpl.
    split; [reflexivity|]. split; [|reflexivity].
    apply lookup_insert_ne. intros H. by apply (max_rest_distinct s).
Qed.

(** C2, as amended: a call of [output] in mode "train" or "val" on
    well-formed metrics succeeds and appends the report, under a
    header carrying the mode label, to one and the same file
    [train_metrics.txt] of the run directory. *)
Theorem train_and_val_share_a_file
    (metrics : list (list Q)) (totals : list (string * Float))
    (C : nat) (mode : string) (s : St) :
  well_formed C metrics totals ->
  mode = "train" \/ mode = "val" ->
  exists s' : St,
    output table_str metrics totals mode s = (Ok tt, s') /\
    train_file s = path_join (base_dir_of s) "train_metrics.txt" /\
    files s' =
      <[train_file s :=
          (default "" (files s !! train_file s)
           +:+ epoch_header (current_epoch s) (epoch (cfg s)) mode)
          +:+ (table_str (report_table metrics totals) +:+ nl)]> (files s).
Proof.
  intros Hwf Hmode. eexists. split.
  - apply (output_other _ _ _ C); [done|]. by destruct Hmode as [-> | ->].
  - split; [reflexivity|].
    unfold report_written, printed.
    destruct (_ || _); reflexivity.
Qed.

End ReportFiles.

Lemma sample_metrics_well_formed (x : Q) :
  well_formed 2 (sample_metrics x) sample_totals.
Proof. repeat split. repeat constructor. Qed.

Lemma test_report_goes_to_one_file_witness :
  well_formed 2 (sample_metrics (1 # 2)) sample_totals /\
  change_f1_of (sample_metrics (1 # 2)) = Some (1 # 2)%Q /\
  exists s' : myTrain unit,
    output sample_table_str (sample_metrics (1 # 2)) sample_totals "test" sample
    = (Ok tt, s') /\
    files s' !! "logs/test_metrics_rest.txt" = None /\
    test_max_f1 s' = (1 # 2)%Q.
Proof.
  split; [apply sample_metrics_well_formed|]. split; [reflexivity|].
  destruct (test_report_goes_to_one_file sample_table_str
              (sample_metrics (1 # 2)) sample_totals 2 (1 # 2) sample
              (sample_metrics_well_formed _) eq_refl)
    as (s' & Hrun & Hup & _).
  exists s'. split; [exact Hrun|].
  destruct Hup as (_ & Hrest & Hbest); [reflexivity|].
  split; [exact Hrest | exact Hbest].
Defined.

(** C1, as stated, fails: a test-mode call whose change-class F1 (1/2)
    exceeds the best so far (-1) appends its report to the "max" file
    only; nothing is appended to the "rest" file, which does not even
    come to exist. *)
Lemma improving_test_report_skips_rest_file :
  let s' := (output sample_table_str (sample_metrics (1 # 2)) sample_totals
               "test" sample).2 in
  (test_max_f1 sample < 1 # 2)%Q /\
  files sample !! rest_file sample = None /\
  files s' !! rest_file sample = None /\
  files s' !! max_file sample
  = Some ("epoch:0/100 test" +:+ nl +:+ "<table>" +:+ nl).
Proof. vm_compute. repeat split; reflexivity. Qed.

Lemma train_and_val_share_a_file_witness :
  well_formed 2 (sample_metrics (1 # 2)) sample_totals /\
  exists s' : myTrain unit,
    output sample_table_str (sample_metrics (1 # 2)) sample_totals "val" sample
    = (Ok tt, s') /\
    is_Some (files s' !! "logs/train_metrics.txt").
Proof.
  split; [apply sample_metrics_well_formed|].
  destruct (train_and_val_share_a_file sample_table_str
              (sample_metrics (1 # 2)) sample_totals 2 "val" sample
              (sample_metrics_well_formed _) (or_intror eq_refl))
    as (s' & Hrun & _ & Hfiles).
  exists s'. split; [exact Hrun|].
  rewrite Hfiles. rewrite lookup_insert_eq. eexists; reflexivity.
Defined.

(** C2, as stated, fails: the same report sent in mode "train" and in
    mode "val" lands in the same file, [logs/train_metrics.txt], and no
    other file is written in either case. *)
Lemma val_report_lands_in_train_file :
  let tr_files := files (output sample_table_str (sample_metrics (1 # 2))
                           sample_totals "train" sample).2 in
  let val_files := files (output sample_table_str (sample_metrics (1 # 2))
                            sample_totals "val" sample).2 in
  tr_files = {[ "logs/train_metrics.txt" :=
                  "epoch:0/100 train" +:+ nl +:+ "<table>" +:+ nl ]} /\
  val_files = {[ "logs/train_metrics.txt" :=
                   "epoch:0/100 val" +:+ nl +:+ "<table>" +:+ nl ]}.
Proof.
  cbv zeta.
  rewrite !(output_other _ _ _ 2) by (apply sample_metrics_well_formed || done).
  split; reflexivity.
Qed.

(** ** The layout of a report *)

Section ReportLayout.

Context {Img : Type}.
Variable table_str : PrettyTable -> string.
Local Abbreviation St := (myTrain Img).

Lemma report_table_rows (p r f u : list Q) totals :
  rows (report_table [p; r; f; u] totals)
  = map (class_row [p; r; f; u]) (seq 0 (length p)) ++ [total_row totals].
Proof. reflexivity. Qed.

(** Whatever the mode, a successful report is one insertion into the
    file system. *)
Lemma output_appends (metrics : list (list Q)) totals C mode (s : St) :
  well_formed C metrics totals ->
  mode <> "test" \/ 2 <= C ->
  exists (s' : St) (file_name : string),
    output table_str metrics totals mode s = (Ok tt, s') /\
    files s' =
      <[file_name :=
          (default "" (files s !! file_name)
           +:+ epoch_header (current_epoch s) (epoch (cfg s)) mode)
          +:+ (table_str (report_table metrics totals) +:+ nl)]> (files s).
Proof.
  intros Hwf Hmode.
  destruct (decide (mode = "test")) as [->|Hne].
  - destruct Hmode as [Hne|HC]; [done|].
    destruct (change_f1_defined C metrics totals Hwf HC) as [x Hx].
    rewrite (output_test _ _ _ C x) by done. cbv zeta.
    destruct (Qgtb x (test_max_f1 s)).
    + eexists. exists (max_file s). split; [reflexivity|].
      unfold report_written, printed. reflexivity.
    + eexists. exists (rest_file s). split; [reflexivity|].
      unfold report_written, printed. reflexivity.
  - rewrite (output_other _ _ _ C) by done.
    eexists. exists (train_file s). split; [reflexivity|].
    unfold report_written, printed. destruct (_ || _); reflexivity.
Qed.

(** C8: on four per-class vectors over [C] classes and five aggregate
    scalars (and at least two classes in test mode), [output]
    succeeds and appends to one file a header line
    [epoch:<current>/<total> <mode>] followed by the rendering of a
    table that has one row per class, holding the class index, the
    placeholder [--] and precision, recall, F1 and IoU rounded by
    [np_round4], then one last row holding [total] and the rounded
    aggregate scalars; [np_round4] gives a multiple of [10^-4] within
    [0.00005] of its argument. *)
Theorem report_is_a_table_under_a_header
    (p r f u : list Q) (totals : list (string * Float))
    (C : nat) (mode : string) (s : St) :
  well_formed C [p; r; f; u] totals ->
  mode <> "test" \/ 2 <= C ->
  exists (s' : St) (tbl : PrettyTable) (file_name : string),
    output table_str [p; r; f; u] totals mode s = (Ok tt, s') /\
    files s' =
      <[file_name :=
          (default "" (files s !! file_name)
           +:+ ("epoch:" +:+ pretty (current_epoch s) +:+ "/"
                +:+ pretty (epoch (cfg s)) +:+ " " +:+ mode +:+ nl))
          +:+ (table_str tbl +:+ nl)]> (files s) /\
    length (rows tbl) = C + 1 /\
    (forall i xp xr xf xu,
       p !! i = Some xp -> r !! i = Some xr ->
       f !! i = Some xf -> u !! i = Some xu ->
       rows tbl !! i =
         Some [CInt i; CStr "--";
               CFloat (Num (np_round4 xp)); CFloat (Num (np_round4 xr));
               CFloat (Num (np_round4 xf)); CFloat (Num (np_round4 xu))]) /\
    rows tbl !! C
    = Some (CStr "total" :: map (fun kv => CFloat (np_round kv.2)) totals) /\
    (forall q : Q,
       (exists z : Z, np_round4 q == z # 10000)%Q /\
       (Qabs (q - np_round4 q) <= 1 # 20000)%Q).
Proof.
  intros Hwf Hmode.
  destruct (output_appends _ _ _ _ s Hwf Hmode) as (s' & file_name & Hrun & Hfiles).
  exists s', (report_table [p; r; f; u] totals), file_name.
  destruct Hwf as (_ & Hall & _).
  apply Forall_cons in Hall as [Hp _].
  split; [exact Hrun|]. split; [exact Hfiles|].
  rewrite report_table_rows.
  split; [|split; [|split]].
  - rewrite length_app, length_map, length_seq, Hp. reflexivity.
  - intros i xp xr xf xu Hxp Hxr Hxf Hxu.
    assert (i < length p) as Hi by (apply lookup_lt_is_Some; eauto).
    rewrite lookup_app_l by (rewrite length_map, length_seq; exact Hi).
    rewrite list_lookup_fmap, lookup_seq_lt by exact Hi. simpl.
    unfold class_row. simpl. rewrite Hxp, Hxr, Hxf, Hxu. reflexivity.
  - rewrite lookup_app_r by (rewrite length_map, length_seq; lia).
    rewrite length_map, length_seq, Hp, Nat.sub_diag. reflexivity.
  - apply np_round4_spec.
Qed.

End ReportLayout.

Lemma report_is_a_table_under_a_header_witness :
  well_formed 2 [[1; 1 # 3]; [1; 1]; [1; 1 # 2]; [1; 1]]%Q sample_totals /\
  ("test" <> "test" \/ 2 <= 2) /\
  exists (s' : myTrain unit) (tbl : PrettyTable),
    output sample_table_str [[1; 1 # 3]; [1; 1]; [1; 1 # 2]; [1; 1]]%Q
      sample_totals "test" sample = (Ok tt, s') /\
    length (rows tbl) = 3 /\
    rows tbl !! 1 =
      Some [CInt 1; CStr "--";
            CFloat (Num (np_round4 (1 # 3))); CFloat (Num (np_round4 1));
            CFloat (Num (np_round4 (1 # 2))); CFloat (Num (np_round4 1))].
Proof.
  assert (Hwf : well_formed 2 [[1; 1 # 3]; [1; 1]; [1; 1 # 2]; [1; 1]]%Q
                  sample_totals) by (repeat split; repeat constructor).
  split; [exact Hwf|]. split; [right; lia|].
  destruct (report_is_a_table_under_a_header sample_table_str
              [1; 1 # 3]%Q [1; 1]%Q [1; 1 # 2]%Q [1; 1]%Q sample_totals 2
              "test" sample Hwf (or_intror (le_n 2)))
    as (s' & tbl & file_name & Hrun & _ & Hlen & Hrow & _).
  exists s', tbl. split; [exact Hrun|]. split; [exact Hlen|].
  apply Hrow; reflexivity.
Defined.

Example np_round4_third : (np_round4 (1 # 3) == 3333 # 10000)%Q.
Proof. reflexivity. Qed.

Example np_round4_ties_to_even :
  (np_round4 (5 # 100000) == 0)%Q /\ (np_round4 (15 # 100000) == 2 # 10000)%Q.
Proof. split; reflexivity. Qed.

(** ** What a report leaves alone *)

Section Frame.

Context {Img : Type}.
Variable table_str : PrettyTable -> string.
Local Abbreviation St := (myTrain Img).
Local Abbreviation T := (M St).

Variable b : Q.

Lemma keeps_ret {A} (a : A) : keeps_best b (ret a : T A).
Proof. intros s Hs. exact Hs. Qed.

Lemma keeps_raise {A} (e : Exn) : keeps_best b (raise e : T A).
Proof. intros s Hs. exact Hs. Qed.

Lemma keeps_lift {A} (r : Result A) : keeps_best b (lift r : T A).
Proof. intros s Hs. exact Hs. Qed.

Lemma keeps_gets {A} (f : St -> A) : keeps_best b (gets f).
Proof. intros s Hs. exact Hs. Qed.

Lemma keeps_modify (f : St -> St) :
  (forall s, test_max_f1 (f s) = test_max_f1 s) -> keeps_best b (modify f).
Proof. intros Hf s Hs. simpl. by rewrite Hf. Qed.

Lemma keeps_bind {A B} (m : T A) (k : A -> T B) :
  keeps_best b m -> (forall a, keeps_best b (k a)) -> keeps_best b (bind m k).
Proof.
  intros Hm Hk s Hs. unfold bind. specialize (Hm s Hs).
  destruct (m s) as [[a|e] s']; simpl in *; [by apply Hk | exact Hm].
Qed.

(** The continuation of an indexing only runs on an element found. *)
Lemma keeps_index_bind {A B} (l : list A) (i : nat) (k : A -> T B) :
  (forall x, l !! i = Some x -> keeps_best b (k x)) ->
  keeps_best b (bind (index l i) k).
Proof.
  intros Hk s Hs. unfold bind, index.
  destruct (l !! i) as [x|]; simpl; [by apply Hk | exact Hs].
Qed.

Lemma keeps_for_fold {A X} (xs : list X) (acc : A) (body : X -> A -> T A) :
  (forall x a, keeps_best b (body x a)) -> keeps_best b (for_fold xs acc body).
Proof.
  intros Hbody. revert acc. induction xs as [|x xs IH]; intros acc; simpl.
  - apply keeps_ret.
  - apply keeps_bind; [apply Hbody | exact IH].
Qed.

Lemma keeps_print (line : string) : keeps_best b (print line : T unit).
Proof. by apply keeps_modify. Qed.

Lemma keeps_open_append (file_name : string) :
  keeps_best b (open_append file_name : T unit).
Proof. by apply keeps_modify. Qed.

Lemma keeps_write (file_name text : string) :
  keeps_best b (write file_name text : T unit).
Proof. by apply keeps_modify. Qed.

(** [output] leaves the best test F1 alone in every mode but "test",
    and in mode "test" when the change-class F1 does not exceed it;
    this holds for any arguments, also those on which [output]
    raises. *)
Lemma output_keeps_best (metrics : list (list Q)) totals mode :
  mode <> "test" \/
  (forall x, change_f1_of metrics = Some x -> (x <= b)%Q) ->
  keeps_best b (output table_str metrics totals mode : T unit).
Proof.
  intros Hcase. unfold output.
  apply keeps_index_bind; intros m0 _.
  apply keeps_bind.
  { apply keeps_for_fold; intros i tbl. apply keeps_bind; [|intros; apply keeps_lift].
    apply keeps_for_fold; intros j item.
    apply keeps_index_bind; intros mj _. apply keeps_index_bind; intros x _.
    apply keeps_ret. }
  intros tbl0. apply keeps_bind; [apply keeps_lift|]. intros tbl.
  apply keeps_bind.
  { destruct (_ || _); [|apply keeps_ret].
    apply keeps_bind; [apply keeps_print|intros; apply keeps_print]. }
  intros _. apply keeps_bind; [apply keeps_gets|]. intros base.
  apply keeps_bind.
  - destruct (bool_decide (mode = "test")) eqn:Hmode; [|apply keeps_ret].
    apply bool_decide_eq_true in Hmode.
    destruct Hcase as [Hne|Hle]; [done|].
    apply keeps_index_bind; intros m2 H2.
    apply keeps_index_bind; intros x Hx.
    assert (x <= b)%Q as Hxb.
    { apply Hle. unfold change_f1_of. rewrite H2. exact Hx. }
    intros s Hs. unfold bind, gets. simpl. rewrite Hs.
    apply Qgtb_false in Hxb. rewrite Hxb. exact Hs.
  - intros file_name. apply keeps_bind; [apply keeps_open_append|]. intros _.
    apply keeps_bind; [apply keeps_gets|]. intros ep.
    apply keeps_bind; [apply keeps_gets|]. intros n.
    apply keeps_bind; [apply keeps_write|]. intros _. apply keeps_write.
Qed.

End Frame.

(** C9: after a call of [output] in a mode other than "test" (so in
    modes "train" and "val") the best test F1 is what it was, and after
    a call in mode "test" it is what it was unless the change-class F1
    of the call strictly exceeds it; this holds whether the call
    returns or raises. *)
Theorem output_touches_best_only_on_improving_test {Img : Type}
    (table_str : PrettyTable -> string)
    (metrics : list (list Q)) (totals : list (string * Float))
    (mode : string) (s : myTrain Img) :
  mode <> "test" \/
  (forall x, change_f1_of metrics = Some x -> ~ (test_max_f1 s < x)%Q) ->
  test_max_f1 (output table_str metrics totals mode s).2 = test_max_f1 s.
Proof.
  intros Hcase. apply (output_keeps_best table_str (test_max_f1 s)); [|done].
  destruct Hcase as [Hne|Hle]; [by left|right].
  intros x Hx. apply Qnot_lt_le. by apply Hle.
Qed.

Lemma output_touches_best_only_on_improving_test_witness :
  ("train" <> "test" \/
   (forall x, change_f1_of (sample_metrics (1 # 2)) = Some x ->
              ~ (test_max_f1 sample < x)%Q)) /\
  test_max_f1 (output sample_table_str (sample_metrics (1 # 2)) sample_totals
                 "train" sample).2 = (-1)%Q /\
  ("test" <> "test" \/
   (forall x, change_f1_of (sample_metrics (-2)) = Some x ->
              ~ (test_max_f1 sample < x)%Q)) /\
  test_max_f1 (output sample_table_str (sample_metrics (-2)) sample_totals
                 "test" sample).2 = (-1)%Q.
Proof.
  assert (H1 : "train" <> "test") by discriminate.
  assert (H2 : forall x, change_f1_of (sample_metrics (-2)) = Some x ->
                         ~ (test_max_f1 sample < x)%Q).
  { intros x Hx. injection Hx as <-. discriminate. }
  split; [left; exact H1|].
  split; [exact (output_touches_best_only_on_improving_test sample_table_str
                   (sample_metrics (1 # 2)) sample_totals "train" sample
                   (or_introl H1))|].
  split; [right; exact H2|].
  exact (output_touches_best_only_on_improving_test sample_table_str
           (sample_metrics (-2)) sample_totals "test" sample (or_intror H2)).
Defined.

(** The remaining case: an improving call in mode "test" does move the
    best test F1. *)
Example improving_test_report_moves_best :
  test_max_f1 (output sample_table_str (sample_metrics (1 # 2)) sample_totals
                 "test" sample).2 = (1 # 2)%Q.
Proof. reflexivity. Qed.

(** ** The phase ends *)

Lemma per_class_length (g : Metric.t -> nat -> Q) (m : Metric.t) :
  length (Metric.per_class g m) = Metric.num_classes m.
Proof. unfold Metric.per_class. by rewrite length_map, length_seq. Qed.

Lemma per_class_lookup (g : Metric.t -> nat -> Q) (m : Metric.t) (i : nat) :
  i < Metric.num_classes m -> Metric.per_class g m !! i = Some (g m i).
Proof.
  intros Hi. unfold Metric.per_class.
  by rewrite list_lookup_fmap, lookup_seq_lt.
Qed.

Lemma phase_metrics_well_formed (C : nat) (pre : string) (p : PhaseMetrics) :
  (forall k, Metric.num_classes (get_kind k p) = C) ->
  well_formed C (phase_metrics p) (phase_totals pre p).
Proof.
  intros H. split; [reflexivity|]. split; [|reflexivity].
  pose proof (H Prec) as Hp. pose proof (H Recall) as Hr.
  pose proof (H F1) as Hf. pose proof (H IoU) as Hu. simpl in *.
  unfold phase_metrics, Metric.compute_precision, Metric.compute_recall,
    Metric.compute_f1, Metric.compute_iou.
  repeat constructor; rewrite per_class_length; assumption.
Qed.

Lemma phase_change_f1 (C : nat) (p : PhaseMetrics) :
  Metric.num_classes (f1 p) = C -> 2 <= C ->
  exists x, Metric.compute_f1 (f1 p) !! 1 = Some x /\
            change_f1_of (phase_metrics p) = Some x.
Proof.
  intros H HC. eexists. split.
  - apply per_class_lookup. lia.
  - unfold change_f1_of, phase_metrics. simpl. apply per_class_lookup. lia.
Qed.

Section PhaseEnds.

Context {Img : Type}.
Variable table_str : PrettyTable -> string.
Local Abbreviation St := (myTrain Img).
Local Abbreviation T := (M St).

Lemma classes_ok_phase C ph (s : St) :
  classes_ok C s -> forall k, Metric.num_classes (get_kind k (get_phase ph s)) = C.
Proof. intros H k. apply (H ph k). Qed.

Lemma log_entries (entries : list (string * Float)) (s : St) :
  for_each entries (fun kv => log kv.1 kv.2) s
  = (Ok tt, set_logged (logged s ++ entries) s).
Proof.
  revert s. induction entries as [|[name v] entries IH]; intros s.
  - unfold for_each. simpl. unfold ret, set_logged. rewrite app_nil_r.
    by destruct s.
  - unfold for_each in *. simpl. unfold bind at 1. unfold log at 1. simpl.
    rewrite IH. unfold set_logged. simpl. rewrite <- app_assoc. reflexivity.
Qed.

Lemma resets_ok (ph : Phase) (s : St) :
  (metric_reset ph OA ;; metric_reset ph Prec ;; metric_reset ph Recall ;;
   metric_reset ph F1 ;; metric_reset ph IoU) s
  = (Ok tt, reset_phase ph s).
Proof. destruct ph; reflexivity. Qed.

Lemma on_train_epoch_end_ok (C : nat) (s : St) :
  classes_ok C s -> 2 <= C ->
  exists x s1,
    Metric.compute_f1 (tr_f1 s) !! 1 = Some x /\
    output table_str (phase_metrics (tr s)) (phase_totals "tr_" (tr s))
      "train" s = (Ok tt, s1) /\
    on_train_epoch_end table_str s
    = (Ok tt,
       reset_phase Train
         (set_logged (logged s1 ++ phase_totals "tr_" (tr s)
                      ++ [("tr_change_f1", Num x)]) s1)).
Proof.
  intros Hok HC.
  destruct (phase_change_f1 C (tr s) (Hok Train F1) HC) as (x & Hx & _).
  pose proof (phase_metrics_well_formed C "tr_" (tr s)
                (classes_ok_phase C Train s Hok)) as Hwf.
  pose proof (output_other table_str _ _ C "train" s Hwf
                ltac:(discriminate)) as Hout.
  set (s1 := report_written _ _ _ _ _) in Hout. clearbody s1.
  exists x, s1. split; [exact Hx|]. split; [exact Hout|].
  unfold on_train_epoch_end.
  do 5 (erewrite bind_ok by reflexivity).
  erewrite bind_ok by exact Hout.
  erewrite bind_ok by apply log_entries.
  erewrite bind_ok by reflexivity.
  erewrite bind_ok by (apply index_ok; exact Hx).
  unfold bind at 1. unfold log at 1. simpl.
  rewrite resets_ok. unfold set_logged at 1 2. simpl.
  rewrite <- app_assoc. reflexivity.
Qed.

(** *** What a report touches *)

Lemma output_effects C metrics totals mode (s s1 : St) :
  well_formed C metrics totals ->
  output table_str metrics totals mode s = (Ok tt, s1) ->
  report_effects s s1.
Proof.
  intros Hwf. destruct (decide (mode = "test")) as [->|Hne].
  - destruct (change_f1_of metrics) as [x|] eqn:Hx.
    + rewrite (output_test _ _ _ C x) by done. cbv zeta.
      intros [= <-]. unfold report_effects, report_written, printed.
      destruct (Qgtb x (test_max_f1 s)); simpl; by destruct s.
    + rewrite (output_test_raise _ _ _ C) by done. discriminate.
  - rewrite (output_other _ _ _ C) by done. intros [= <-].
    unfold report_effects, report_written, printed.
    destruct (_ || _); simpl; by destruct s.
Qed.

(** *** The loop of [test] *)

Lemma update_classes (m m' : Metric.t) pred mask :
  Metric.update m pred mask = Ok m' ->
  Metric.num_classes m' = Metric.num_classes m.
Proof.
  unfold Metric.update. repeat case_match; try discriminate.
  by intros [= <-].
Qed.

Lemma metric_call_ok ph k pred mask (s : St) :
  Metric.valid_batch (Metric.num_classes (metric ph k s)) pred mask ->
  exists m',
    Metric.update (metric ph k s) pred mask = Ok m' /\
    metric_call ph k pred mask s = (Ok tt, set_metric ph k m' s).
Proof.
  intros Hv. eexists. split; [by apply MetricFacts.update_valid|].
  unfold metric_call. erewrite bind_ok by reflexivity.
  erewrite bind_ok; [reflexivity|].
  unfold lift. by rewrite MetricFacts.update_valid.
Qed.

Lemma test_batch_ok C (b : Batch) pred mask (s : St) :
  classes_ok C s ->
  predict (net s) b = Ok (pred, mask) ->
  Metric.valid_batch C pred mask ->
  exists s',
    test_batch b s = (Ok tt, s') /\
    (forall k, Metric.update (metric Test k s) pred mask
               = Ok (metric Test k s')) /\
    s' = set_phase Test (test_ s') s.
Proof.
  intros Hok Hp Hv. destruct b as [[x1 x2] mask0]. unfold predict in Hp.
  destruct (argmax_dim1 (net s x1 x2)) as [pred0|] eqn:Ha; [|discriminate].
  injection Hp as -> ->.
  unfold test_batch.
  erewrite bind_ok by reflexivity.
  erewrite bind_ok by (unfold lift; rewrite Ha; reflexivity).
  destruct (metric_call_ok Test OA pred mask s) as (m1 & H1 & E1);
    [by rewrite (Hok Test OA)|].
  erewrite bind_ok by exact E1.
  destruct (metric_call_ok Test IoU pred mask (set_metric Test OA m1 s))
    as (m2 & H2 & E2); [by rewrite <- (Hok Test IoU) in Hv|].
  erewrite bind_ok by exact E2.
  destruct (metric_call_ok Test Prec pred mask
              (set_metric Test IoU m2 (set_metric Test OA m1 s)))
    as (m3 & H3 & E3); [by rewrite <- (Hok Test Prec) in Hv|].
  erewrite bind_ok by exact E3.
  destruct (metric_call_ok Test F1 pred mask
              (set_metric Test Prec m3
                 (set_metric Test IoU m2 (set_metric Test OA m1 s))))
    as (m4 & H4 & E4); [by rewrite <- (Hok Test F1) in Hv|].
  erewrite bind_ok by exact E4.
  destruct (metric_call_ok Test Recall pred mask
              (set_metric Test F1 m4
                 (set_metric Test Prec m3
                    (set_metric Test IoU m2 (set_metric Test OA m1 s)))))
    as (m5 & H5 & E5); [by rewrite <- (Hok Test Recall) in Hv|].
  rewrite E5.
  eexists. split; [reflexivity|]. split; [|reflexivity].
  intros []; simpl; assumption.
Qed.

Lemma classes_ok_set_phase C ph (s s' : St) :
  classes_ok C s -> s' = set_phase ph (get_phase ph s') s ->
  (forall k, Metric.num_classes (metric ph k s') = C) ->
  classes_ok C s'.
Proof.
  intros Hok Heq Hk ph' k.
  destruct ph, ph'; try apply Hk; rewrite Heq;
    first [exact (Hok Train k) | exact (Hok Val k) | exact (Hok Test k)].
Qed.

Lemma test_loop_ok C (loader : list Batch) (s : St) :
  classes_ok C s ->
  Forall (batch_ok C (net s)) loader ->
  exists pairs s',
    predictions (net s) loader pairs /\
    for_each loader test_batch s = (Ok tt, s') /\
    fed Test pairs s s' /\
    classes_ok C s'.
Proof.
  revert s. induction loader as [|b loader IH]; intros s Hok Hall.
  - exists [], s. split; [constructor|]. split; [reflexivity|].
    split; [|exact Hok]. split; [reflexivity|]. by destruct s.
  - apply Forall_cons in Hall as [(pred & mask & Hp & Hv) Hall].
    destruct (test_batch_ok C b pred mask s Hok Hp Hv) as (s1 & Hb & Hup & Hs1).
    assert (Hok1 : classes_ok C s1).
    { apply (classes_ok_set_phase C Test s); [exact Hok|exact Hs1|].
      intros k. rewrite (update_classes _ _ _ _ (Hup k)). apply Hok. }
    assert (Hnet : net s1 = net s) by (rewrite Hs1; reflexivity).
    rewrite <- Hnet in Hall.
    destruct (IH s1 Hok1 Hall) as (pairs & s' & Hps & Hrun & [Hfeed Hs'] & Hok').
    exists ((pred, mask) :: pairs), s'.
    split; [constructor; [exact Hp|by rewrite <- Hnet]|].
    split.
    { unfold for_each in *. simpl. erewrite bind_ok by exact Hb. exact Hrun. }
    split; [|exact Hok'].
    split.
    + intros k. simpl. rewrite (Hup k). apply Hfeed.
    + rewrite Hs' at 1. rewrite Hs1. reflexivity.
Qed.

(** *** [test] *)

Lemma test_ok (C : nat) (s : St) :
  classes_ok C s -> 2 <= C -> loader_ok C s ->
  exists pairs s_fed s_rep x,
    predictions (net s) (test_loader s) pairs /\
    fed Test pairs s s_fed /\
    output table_str (phase_metrics (test_ s_fed))
      (phase_totals "test_" (test_ s_fed)) "test" s_fed = (Ok tt, s_rep) /\
    Metric.compute_f1 (test_f1 s_fed) !! 1 = Some x /\
    test table_str s = (Ok x, reset_phase Test s_rep).
Proof.
  intros Hok HC Hld.
  destruct (test_loop_ok C (test_loader s) s Hok Hld)
    as (pairs & s_fed & Hps & Hloop & Hfed & Hok').
  destruct (phase_change_f1 C (test_ s_fed) (Hok' Test F1) HC) as (x & Hx & Hch).
  pose proof (phase_metrics_well_formed C "test_" (test_ s_fed)
                (classes_ok_phase C Test s_fed Hok')) as Hwf.
  pose proof (output_test table_str _ _ C x s_fed Hwf Hch) as Hout.
  cbv zeta in Hout.
  match type of Hout with _ = (_, ?t) => set (s_rep := t) in Hout end.
  clearbody s_rep.
  exists pairs, s_fed, s_rep, x.
  split; [exact Hps|]. split; [exact Hfed|]. split; [exact Hout|].
  split; [exact Hx|].
  unfold test.
  erewrite bind_ok by reflexivity.
  erewrite bind_ok by exact Hloop.
  do 5 (erewrite bind_ok by reflexivity).
  erewrite bind_ok by exact Hout.
  do 5 (erewrite bind_ok by reflexivity).
  erewrite bind_ok by reflexivity.
  erewrite index_ok by exact Hx. reflexivity.
Qed.

Lemma report_effects_fields (s s1 : St) :
  report_effects s s1 ->
  tr s1 = tr s /\ val s1 = val s /\ test_ s1 = test_ s /\
  net s1 = net s /\ test_loader s1 = test_loader s /\
  logged s1 = logged s.
Proof. intros ->. repeat split. Qed.

(** *** [on_validation_epoch_end] *)

Lemma on_validation_epoch_end_ok (C : nat) (s : St) :
  classes_ok C s -> 2 <= C -> loader_ok C s ->
  exists v s1 s_mid x s_end,
    Metric.compute_f1 (val_f1 s) !! 1 = Some v /\
    output table_str (phase_metrics (val s)) (phase_totals "val_" (val s))
      "val" s = (Ok tt, s1) /\
    s_mid = reset_phase Val
              (set_logged (logged s1 ++ phase_totals "val_" (val s)
                           ++ [("val_change_f1", Num v)]) s1) /\
    classes_ok C s_mid /\ loader_ok C s_mid /\
    test table_str s_mid = (Ok x, s_end) /\
    on_validation_epoch_end table_str s
    = (Ok tt, set_logged (logged s_end ++ [("test_change_f1", Num x)]) s_end).
Proof.
  intros Hok HC Hld.
  destruct (phase_change_f1 C (val s) (Hok Val F1) HC) as (v & Hv & _).
  pose proof (phase_metrics_well_formed C "val_" (val s)
                (classes_ok_phase C Val s Hok)) as Hwf.
  pose proof (output_other table_str _ _ C "val" s Hwf
                ltac:(discriminate)) as Hout.
  set (s1 := report_written _ _ _ _ _) in Hout. clearbody s1.
  pose proof (output_effects _ _ _ _ _ _ Hwf Hout) as Heff.
  destruct (report_effects_fields _ _ Heff)
    as (Htr & Hval & Htest & Hnet & Hloader & Hlogged).
  set (s_mid := reset_phase Val
                  (set_logged (logged s1 ++ phase_totals "val_" (val s)
                               ++ [("val_change_f1", Num v)]) s1)).
  assert (Hok_mid : classes_ok C s_mid).
  { intros ph k. rewrite <- (Hok ph k).
    destruct ph, k; simpl; rewrite ?Hval, ?Htr, ?Htest; reflexivity. }
  assert (Hld_mid : loader_ok C s_mid).
  { unfold loader_ok in *. simpl. rewrite Hnet, Hloader. exact Hld. }
  destruct (test_ok C s_mid Hok_mid HC Hld_mid)
    as (pairs & s_fed & s_rep & x & _ & _ & _ & _ & Htest_run).
  exists v, s1, s_mid, x, (reset_phase Test s_rep).
  split; [exact Hv|]. split; [exact Hout|]. split; [reflexivity|].
  split; [exact Hok_mid|]. split; [exact Hld_mid|]. split; [exact Htest_run|].
  unfold on_validation_epoch_end.
  do 5 (erewrite bind_ok by reflexivity).
  erewrite bind_ok by exact Hout.
  erewrite bind_ok by apply log_entries.
  erewrite bind_ok by reflexivity.
  erewrite bind_ok by (apply index_ok; exact Hv).
  erewrite bind_ok by reflexivity.
  do 5 (erewrite bind_ok by reflexivity).
  erewrite bind_ok; [reflexivity|].
  rewrite <- Htest_run. f_equal. unfold s_mid, reset_phase, set_logged. simpl.
  rewrite <- app_assoc. reflexivity.
Qed.

(** *** With fewer than two classes *)

Lemma phase_no_change_class (C : nat) (p : PhaseMetrics) :
  Metric.num_classes (f1 p) = C -> C < 2 ->
  Metric.compute_f1 (f1 p) !! 1 = None /\
  change_f1_of (phase_metrics p) = None.
Proof.
  intros H HC.
  assert (Metric.compute_f1 (f1 p) !! 1 = None) as Hn.
  { apply lookup_ge_None. unfold Metric.compute_f1.
    rewrite per_class_length. lia. }
  split; [exact Hn|]. unfold change_f1_of, phase_metrics. simpl. exact Hn.
Qed.

Lemma on_train_epoch_end_raise (C : nat) (s : St) :
  classes_ok C s -> C < 2 ->
  exists s', on_train_epoch_end table_str s = (Raise IndexError, s') /\
             tr s' = tr s.
Proof.
  intros Hok HC.
  destruct (phase_no_change_class C (tr s) (Hok Train F1) HC) as (Hx & _).
  pose proof (phase_metrics_well_formed C "tr_" (tr s)
                (classes_ok_phase C Train s Hok)) as Hwf.
  pose proof (output_other table_str _ _ C "train" s Hwf
                ltac:(discriminate)) as Hout.
  set (s1 := report_written _ _ _ _ _) in Hout.
  assert (Htr : tr s1 = tr s) by reflexivity. clearbody s1.
  eexists. split.
  - unfold on_train_epoch_end.
    do 5 (erewrite bind_ok by reflexivity).
    erewrite bind_ok by exact Hout.
    erewrite bind_ok by apply log_entries.
    erewrite bind_ok by reflexivity.
    apply bind_raise. unfold index.
    replace (Metric.compute_f1 (tr_f1 s) !! 1) with (@None Q)
      by (symmetry; exact Hx).
    reflexivity.
  - exact Htr.
Qed.

Lemma on_validation_epoch_end_raise (C : nat) (s : St) :
  classes_ok C s -> C < 2 ->
  exists s', on_validation_epoch_end table_str s = (Raise IndexError, s') /\
             val s' = val s.
Proof.
  intros Hok HC.
  destruct (phase_no_change_class C (val s) (Hok Val F1) HC) as (Hx & _).
  pose proof (phase_metrics_well_formed C "val_" (val s)
                (classes_ok_phase C Val s Hok)) as Hwf.
  pose proof (output_other table_str _ _ C "val" s Hwf
                ltac:(discriminate)) as Hout.
  set (s1 := report_written _ _ _ _ _) in Hout.
  assert (Hval : val s1 = val s) by reflexivity. clearbody s1.
  eexists. split.
  - unfold on_validation_epoch_end.
    do 5 (erewrite bind_ok by reflexivity).
    erewrite bind_ok by exact Hout.
    erewrite bind_ok by apply log_entries.
    erewrite bind_ok by reflexivity.
    apply bind_raise. unfold index.
    replace (Metric.compute_f1 (val_f1 s) !! 1) with (@None Q)
      by (symmetry; exact Hx).
    reflexivity.
  - exact Hval.
Qed.

Lemma test_raise (C : nat) (s : St) :
  classes_ok C s -> C < 2 -> loader_ok C s ->
  exists s', test table_str s = (Raise IndexError, s').
Proof.
  intros Hok HC Hld.
  destruct (test_loop_ok C (test_loader s) s Hok Hld)
    as (pairs & s_fed & Hps & Hloop & Hfed & Hok').
  destruct (phase_no_change_class C (test_ s_fed) (Hok' Test F1) HC) as (_ & Hch).
  pose proof (phase_metrics_well_formed C "test_" (test_ s_fed)
                (classes_ok_phase C Test s_fed Hok')) as Hwf.
  eexists. unfold test.
  erewrite bind_ok by reflexivity.
  erewrite bind_ok by exact Hloop.
  do 5 (erewrite bind_ok by reflexivity).
  apply bind_raise. apply (output_test_raise _ _ _ C); [exact Hwf|exact Hch].
Qed.

End PhaseEnds.

(** ** Resets, the embedded test pass and the change class *)

Lemma feed_classes (pairs : list (Mask * Mask)) (m m' : Metric.t) :
  feed m pairs = Ok m' -> Metric.num_classes m' = Metric.num_classes m.
Proof.
  revert m. induction pairs as [|[pred mask] pairs IH]; intros m; simpl.
  - by intros [= <-].
  - destruct (Metric.update m pred mask) as [m1|] eqn:Hup; [|discriminate].
    intros H. rewrite (IH _ H). by apply update_classes in Hup.
Qed.

Section Claims.

Context {Img : Type}.
Variable table_str : PrettyTable -> string.
Local Abbreviation St := (myTrain Img).

Lemma reset_phase_is_reset C ph (s : St) :
  (forall k, Metric.num_classes (metric ph k s) = C) ->
  phase_reset C ph (reset_phase ph s).
Proof.
  intros H k. pose proof (H k) as Hk.
  destruct ph, k; simpl in *; unfold Metric.reset; by rewrite Hk.
Qed.

(** What [test] leaves behind. *)
Lemma test_post (C : nat) (s s' : St) (x : Q) :
  classes_ok C s -> 2 <= C -> loader_ok C s ->
  test table_str s = (Ok x, s') ->
  phase_reset C Test s' /\ tr s' = tr s /\ val s' = val s /\
  logged s' = logged s.
Proof.
  intros Hok HC Hld Hrun.
  destruct (test_ok table_str C s Hok HC Hld)
    as (pairs & s_fed & s_rep & x' & _ & [Hfeed Hfed] & Hout & _ & Hrun').
  rewrite Hrun' in Hrun. injection Hrun as _ <-.
  pose proof (phase_metrics_well_formed C "test_" (test_ s_fed)) as Hwf.
  assert (Hcl : forall k, Metric.num_classes (metric Test k s_fed) = C).
  { intros k. rewrite (feed_classes _ _ _ (Hfeed k)). apply Hok. }
  specialize (Hwf Hcl).
  destruct (report_effects_fields _ _ (output_effects _ _ _ _ _ _ _ Hwf Hout))
    as (Htr & Hval & Htest & _ & _ & Hlogged).
  split.
  - apply (reset_phase_is_reset C Test s_rep). intros k.
    unfold metric. simpl. rewrite Htest. apply Hcl.
  - simpl. rewrite Htr, Hval, Hlogged, Hfed. repeat split.
Qed.

(** C5: in a harness over [C >= 2] classes whose test batches are
    valid, each phase end returns normally and leaves all five
    accumulators of its phase as they were created, empty:
    [on_train_epoch_end] the training ones, [test] the test ones,
    [on_validation_epoch_end] the validation ones and, through the
    embedded test pass, the test ones. *)
Theorem phase_ends_reset_their_accumulators (C : nat) (s : St) :
  classes_ok C s -> 2 <= C -> loader_ok C s ->
  (exists s', on_train_epoch_end table_str s = (Ok tt, s') /\
              phase_reset C Train s') /\
  (exists x s', test table_str s = (Ok x, s') /\ phase_reset C Test s') /\
  (exists s', on_validation_epoch_end table_str s = (Ok tt, s') /\
              phase_reset C Val s' /\ phase_reset C Test s').
Proof.
  intros Hok HC Hld. split; [|split].
  - destruct (on_train_epoch_end_ok table_str C s Hok HC)
      as (x & s1 & _ & Hout & Hrun).
    eexists. split; [exact Hrun|].
    pose proof (phase_metrics_well_formed C "tr_" (tr s)
                  (classes_ok_phase C Train s Hok)) as Hwf.
    destruct (report_effects_fields _ _ (output_effects _ _ _ _ _ _ _ Hwf Hout))
      as (Htr & _).
    match goal with |- phase_reset _ _ (reset_phase _ ?t) =>
      apply (reset_phase_is_reset C Train t) end.
    intros k. unfold metric. simpl. rewrite Htr. apply (Hok Train k).
  - destruct (test_ok table_str C s Hok HC Hld)
      as (pairs & s_fed & s_rep & x & _ & _ & _ & _ & Hrun).
    exists x. eexists. split; [exact Hrun|].
    by destruct (test_post C s _ x Hok HC Hld Hrun).
  - destruct (on_validation_epoch_end_ok table_str C s Hok HC Hld)
      as (v & s1 & s_mid & x & s_end & _ & Hout & Hmid & Hok_mid & Hld_mid
          & Htest & Hrun).
    eexists. split; [exact Hrun|].
    destruct (test_post C s_mid s_end x Hok_mid HC Hld_mid Htest)
      as (Hreset & _ & Hval & _).
    split; [|exact Hreset].
    pose proof (phase_metrics_well_formed C "val_" (val s)
                  (classes_ok_phase C Val s Hok)) as Hwf.
    destruct (report_effects_fields _ _ (output_effects _ _ _ _ _ _ _ Hwf Hout))
      as (_ & Hval1 & _).
    intros k. unfold metric. simpl. rewrite Hval, Hmid.
    match goal with |- context [reset_phase Val ?t] =>
      apply (reset_phase_is_reset C Val t) end.
    intros k'. unfold metric. simpl. rewrite Hval1. apply (Hok Val k').
Qed.

(** C6: in a harness over [C >= 2] classes whose test batches are
    valid, [test] feeds the arg-max predictions of every batch of the
    test loader, in order, into the test accumulators, calls [output]
    in mode "test" on the metrics computed from them, resets the test
    accumulators and returns entry 1 of the per-class F1; and
    [on_validation_epoch_end], once the validation accumulators are
    reset and [val_change_f1] is logged, runs [test] once and logs its
    result as [test_change_f1]. *)
Theorem embedded_test_pass (C : nat) (s : St) :
  classes_ok C s -> 2 <= C -> loader_ok C s ->
  (exists pairs s_fed s_rep x,
     predictions (net s) (test_loader s) pairs /\
     fed Test pairs s s_fed /\
     output table_str (phase_metrics (test_ s_fed))
       (phase_totals "test_" (test_ s_fed)) "test" s_fed = (Ok tt, s_rep) /\
     Metric.compute_f1 (test_f1 s_fed) !! 1 = Some x /\
     test table_str s = (Ok x, reset_phase Test s_rep) /\
     phase_reset C Test (reset_phase Test s_rep)) /\
  (exists v s_mid x s_end,
     Metric.compute_f1 (val_f1 s) !! 1 = Some v /\
     phase_reset C Val s_mid /\ test_ s_mid = test_ s /\
     logged s_mid = logged s ++ phase_totals "val_" (val s)
                    ++ [("val_change_f1", Num v)] /\
     test table_str s_mid = (Ok x, s_end) /\
     on_validation_epoch_end table_str s
     = (Ok tt, set_logged (logged s_mid ++ [("test_change_f1", Num x)]) s_end)).
Proof.
  intros Hok HC Hld. split.
  - destruct (test_ok table_str C s Hok HC Hld)
      as (pairs & s_fed & s_rep & x & Hps & Hfed & Hout & Hx & Hrun).
    exists pairs, s_fed, s_rep, x. repeat (split; [assumption|]).
    by destruct (test_post C s _ x Hok HC Hld Hrun).
  - destruct (on_validation_epoch_end_ok table_str C s Hok HC Hld)
      as (v & s1 & s_mid & x & s_end & Hv & Hout & Hmid & Hok_mid & Hld_mid
          & Htest & Hrun).
    pose proof (phase_metrics_well_formed C "val_" (val s)
                  (classes_ok_phase C Val s Hok)) as Hwf.
    destruct (report_effects_fields _ _ (output_effects _ _ _ _ _ _ _ Hwf Hout))
      as (_ & Hval1 & Htest1 & _ & _ & Hlogged1).
    destruct (test_post C s_mid s_end x Hok_mid HC Hld_mid Htest)
      as (_ & _ & _ & Hlogged).
    exists v, s_mid, x, s_end.
    split; [exact Hv|]. split.
    { rewrite Hmid.
      match goal with |- phase_reset _ _ (reset_phase _ ?t) =>
        apply (reset_phase_is_reset C Val t) end.
      intros k. unfold metric. simpl. rewrite Hval1. apply (Hok Val k). }
    split; [rewrite Hmid; simpl; exact Htest1|].
    split; [rewrite Hmid; simpl; by rewrite Hlogged1|].
    split; [exact Htest|]. rewrite <- Hlogged. exact Hrun.
Qed.

(** C10: every extraction of the change-class F1 reads entry 1 of the
    per-class F1 vector.  Over fewer than two classes that entry does
    not exist and the test-mode [output], [on_train_epoch_end],
    [on_validation_epoch_end] and [test] all raise [IndexError]; over
    two classes or more the entry exists and all four return
    normally. *)
Theorem change_class_needs_two_classes (C : nat) (s : St)
    (metrics : list (list Q)) (totals : list (string * Float)) :
  classes_ok C s -> loader_ok C s -> well_formed C metrics totals ->
  (C < 2 ->
     change_f1_of metrics = None /\
     (output table_str metrics totals "test" s).1 = Raise IndexError /\
     (on_train_epoch_end table_str s).1 = Raise IndexError /\
     (on_validation_epoch_end table_str s).1 = Raise IndexError /\
     (test table_str s).1 = Raise IndexError) /\
  (2 <= C ->
     is_Some (change_f1_of metrics) /\
     (output table_str metrics totals "test" s).1 = Ok tt /\
     (on_train_epoch_end table_str s).1 = Ok tt /\
     (on_validation_epoch_end table_str s).1 = Ok tt /\
     exists x, (test table_str s).1 = Ok x).
Proof.
  intros Hok Hld Hwf. split; intros HC.
  - pose proof (change_f1_undefined C metrics totals Hwf HC) as Hnone.
    split; [exact Hnone|].
    split; [by rewrite (output_test_raise _ _ _ C)|].
    split; [by destruct (on_train_epoch_end_raise table_str C s Hok HC)
              as (s' & -> & _)|].
    split; [by destruct (on_validation_epoch_end_raise table_str C s Hok HC)
              as (s' & -> & _)|].
    by destruct (test_raise table_str C s Hok HC Hld) as (s' & ->).
  - destruct (change_f1_defined C metrics totals Hwf HC) as [x Hx].
    split; [by exists x|].
    split; [by rewrite (output_test _ _ _ C x)|].
    split; [by destruct (on_train_epoch_end_ok table_str C s Hok HC)
              as (? & ? & _ & _ & ->)|].
    split; [by destruct (on_validation_epoch_end_ok table_str C s Hok HC Hld)
              as (? & ? & ? & ? & ? & _ & _ & _ & _ & _ & _ & ->)|].
    destruct (test_ok table_str C s Hok HC Hld)
      as (? & ? & ? & x' & _ & _ & _ & _ & ->).
    by exists x'.
Qed.

End Claims.

(** *** The sample harnesses satisfy the preconditions *)

Lemma sample_classes_ok : classes_ok 2 sample.
Proof. intros [] []; reflexivity. Qed.

Lemma sample_loader_ok : loader_ok 2 sample.
Proof.
  repeat constructor. exists [0; 1; 1; 0], [0; 1; 0; 0].
  split; [reflexivity|]. repeat split.
Qed.

Lemma sample_one_class_ok : classes_ok 1 sample_one_class.
Proof. intros [] []; reflexivity. Qed.

Lemma sample_one_class_loader_ok : loader_ok 1 sample_one_class.
Proof.
  repeat constructor. exists [0; 0], [0; 0].
  split; [reflexivity|]. repeat split.
Qed.

(** Every harness starts with consistent, empty accumulators. *)
Lemma init_classes_ok {Img : Type} c dir C (model : Img -> Img -> Scores)
    criterion loader :
  classes_ok C (init c dir C model criterion loader) /\
  forall ph, phase_reset C ph (init c dir C model criterion loader).
Proof. split; [intros [] []; reflexivity | intros [] []; reflexivity]. Qed.

Lemma phase_ends_reset_their_accumulators_witness :
  classes_ok 2 sample /\ 2 <= 2 /\ loader_ok 2 sample /\
  (exists s', on_train_epoch_end sample_table_str sample = (Ok tt, s') /\
              phase_reset 2 Train s') /\
  (exists x s', test sample_table_str sample = (Ok x, s') /\
                phase_reset 2 Test s') /\
  (exists s', on_validation_epoch_end sample_table_str sample = (Ok tt, s') /\
              phase_reset 2 Val s' /\ phase_reset 2 Test s').
Proof.
  split; [exact sample_classes_ok|]. split; [lia|].
  split; [exact sample_loader_ok|].
  exact (phase_ends_reset_their_accumulators sample_table_str 2 sample
           sample_classes_ok (le_n 2) sample_loader_ok).
Defined.

Lemma embedded_test_pass_witness :
  classes_ok 2 sample /\ 2 <= 2 /\ loader_ok 2 sample /\
  exists x s', test sample_table_str sample = (Ok x, s') /\ (x == 2 # 3)%Q.
Proof.
  split; [exact sample_classes_ok|]. split; [lia|].
  split; [exact sample_loader_ok|].
  destruct (proj1 (embedded_test_pass sample_table_str 2 sample
                     sample_classes_ok (le_n 2) sample_loader_ok))
    as (pairs & s_fed & s_rep & x & _ & _ & _ & _ & Hrun & _).
  exists x. eexists. split; [exact Hrun|].
  assert (Ok x = Ok (2 # 3)%Q) as [= ->]; [|reflexivity].
  change (Ok x) with (Ok x, reset_phase Test s_rep).1.
  rewrite <- Hrun. reflexivity.
Defined.

Lemma change_class_needs_two_classes_witness :
  (classes_ok 1 sample_one_class /\ loader_ok 1 sample_one_class /\
   well_formed 1 [[1]; [1]; [1]; [1]]%Q sample_totals /\ 1 < 2 /\
   (test sample_table_str sample_one_class).1 = Raise IndexError) /\
  (classes_ok 2 sample /\ loader_ok 2 sample /\
   well_formed 2 (sample_metrics (1 # 2)) sample_totals /\ 2 <= 2 /\
   exists x, (test sample_table_str sample).1 = Ok x).
Proof.
  assert (Hwf1 : well_formed 1 [[1]; [1]; [1]; [1]]%Q sample_totals)
    by (repeat split; repeat constructor).
  split.
  - split; [exact sample_one_class_ok|].
    split; [exact sample_one_class_loader_ok|].
    split; [exact Hwf1|]. split; [lia|].
    apply (proj1 (change_class_needs_two_classes sample_table_str 1
                    sample_one_class _ _ sample_one_class_ok
                    sample_one_class_loader_ok Hwf1)). lia.
  - split; [exact sample_classes_ok|]. split; [exact sample_loader_ok|].
    split; [apply sample_metrics_well_formed|]. split; [lia|].
    apply (proj2 (change_class_needs_two_classes sample_table_str 2
                    sample _ _ sample_classes_ok sample_loader_ok
                    (sample_metrics_well_formed (1 # 2)))). lia.
Defined.

(** The phase ends of the sample harnesses, evaluated. *)
Example sample_test_run :
  (test sample_table_str sample).1 = Ok (2 # 3)%Q /\
  (on_train_epoch_end sample_table_str sample).1 = Ok tt /\
  (on_validation_epoch_end sample_table_str sample_one_class).1
  = Raise IndexError.
Proof. repeat split. Qed.

(** ** The "max" file over a run *)

Lemma gating_length (fs : list Q) (best : Q) :
  length (gating best fs) = length fs.
Proof.
  revert best. induction fs as [|x fs IH]; intros best; simpl; [done|].
  destruct (Qgtb x best); simpl; by rewrite IH.
Qed.

(** Call [k] passes the gate exactly when its value exceeds the initial
    best and every earlier value. *)
Lemma gating_spec (fs : list Q) (best : Q) (k : nat) (x : Q) :
  fs !! k = Some x ->
  gating best fs !! k = Some true <->
  (best < x)%Q /\ forall j y, j < k -> fs !! j = Some y -> (y < x)%Q.
Proof.
  revert best k. induction fs as [|y0 fs IH]; intros best k Hk; [done|].
  destruct k as [|k]; simpl in *.
  - injection Hk as ->. destruct (Qgtb x best) eqn:Hg; simpl.
    + apply Qgtb_true in Hg. split; [|done]. intros _. split; [exact Hg|]. lia.
    + apply Qgtb_false in Hg. split; [discriminate|].
      intros [Hlt _]. exfalso. by apply (Qlt_not_le _ _ Hlt).
  - destruct (Qgtb y0 best) eqn:Hg; simpl; rewrite (IH _ _ Hk).
    + apply Qgtb_true in Hg. split.
      * intros [Hlt Hall]. split; [by apply (Qlt_trans _ y0)|].
        intros [|j] y Hj Hy; simpl in Hy.
        -- by injection Hy as <-.
        -- apply (Hall j); [lia|done].
      * intros [Hlt Hall]. split; [apply (Hall 0); [lia|done]|].
        intros j y Hj Hy. apply (Hall (S j)); [lia|done].
    + apply Qgtb_false in Hg. split.
      * intros [Hlt Hall]. split; [exact Hlt|].
        intros [|j] y Hj Hy; simpl in Hy.
        -- injection Hy as <-. by apply (Qle_lt_trans _ best).
        -- apply (Hall j); [lia|done].
      * intros [Hlt Hall]. split; [exact Hlt|].
        intros j y Hj Hy. apply (Hall (S j)); [lia|done].
Qed.

Lemma append_assoc (a b c : string) : (a +:+ b) +:+ c = a +:+ (b +:+ c).
Proof.
  induction a as [|ch a IH]; [reflexivity|].
  change (String ch ((a +:+ b) +:+ c) = String ch (a +:+ (b +:+ c))).
  by rewrite IH.
Qed.

Section Run.

Context {Img : Type}.
Variable table_str : PrettyTable -> string.
Local Abbreviation St := (myTrain Img).

(** One test report changes the content of the "max" file exactly
    when it passes the gate. *)
Lemma test_report_step (metrics : list (list Q)) totals C x (s : St) :
  well_formed C metrics totals -> change_f1_of metrics = Some x ->
  exists s1,
    output table_str metrics totals "test" s = (Ok tt, s1) /\
    max_file s1 = max_file s /\
    bool_decide (files s !! max_file s <> files s1 !! max_file s)
    = Qgtb x (test_max_f1 s) /\
    test_max_f1 s1 = (if Qgtb x (test_max_f1 s) then x else test_max_f1 s).
Proof.
  intros Hwf Hx. eexists. split; [apply (output_test _ _ _ C x); done|].
  cbv zeta. destruct (Qgtb x (test_max_f1 s)).
  - split; [reflexivity|]. split; [|reflexivity].
    apply bool_decide_eq_true. unfold report_written, printed. simpl.
    rewrite lookup_insert_eq. intros H.
    destruct (files s !! max_file s) as [c|]; [|discriminate H].
    injection H as H. symmetry in H. simpl in H.
    rewrite append_assoc in H. apply append_nonempty in H. discriminate H.
  - split; [reflexivity|]. split; [|reflexivity].
    apply bool_decide_eq_false. intros H. apply H.
    unfold report_written, printed. simpl.
    rewrite lookup_insert_ne; [reflexivity|].
    intros E. by apply (max_rest_distinct s).
Qed.

Lemma report_epochs_gating (C : nat)
    (inputs : list (list (list Q) * list (string * Float))) (fs : list Q)
    (k : nat) (s : St) :
  Forall2 (fun inp x => well_formed C inp.1 inp.2 /\
                        change_f1_of inp.1 = Some x) inputs fs ->
  exists s',
    report_epochs table_str k inputs s
    = (Ok (gating (test_max_f1 s) fs), s').
Proof.
  intros Hall. revert k s.
  induction Hall as [|[metrics totals] x inputs fs [Hwf Hx] Hall IH];
    intros k s; simpl in *.
  - eexists. reflexivity.
  - erewrite bind_ok by reflexivity.
    erewrite bind_ok by reflexivity.
    destruct (test_report_step metrics totals C x (set_current_epoch k s)
                Hwf Hx) as (s1 & Hout & Hmax & Hchg & Hbest).
    erewrite bind_ok by exact Hout.
    erewrite bind_ok by reflexivity.
    rewrite Hmax, Hchg. simpl.
    destruct (IH (S k) s1) as (s' & Hrun).
    erewrite bind_ok by exact Hrun.
    rewrite Hbest. simpl. eexists.
    destruct (Qgtb x (test_max_f1 s)); reflexivity.
Qed.

End Run.

(** C4: over a run that starts with the best test F1 at the sentinel
    [-1] and whose test reports carry the change-class F1 values [fs]
    (each in [0, 1]), the reports all succeed and the content of the
    "max" file changes at epoch [k] exactly when the value of epoch [k]
    strictly exceeds the value of every earlier epoch; for the values
    [0.1, 0.5, 0.3, 0.7] that is at epochs 0, 1 and 3 and not at
    epoch 2. *)
Theorem max_file_written_at_running_maxima {Img : Type}
    (table_str : PrettyTable -> string) (C : nat)
    (inputs : list (list (list Q) * list (string * Float))) (fs : list Q)
    (s : myTrain Img) :
  Forall2 (fun inp x => well_formed C inp.1 inp.2 /\
                        change_f1_of inp.1 = Some x) inputs fs ->
  Forall is_f1 fs ->
  test_max_f1 s = (-1)%Q ->
  exists ws s',
    report_epochs table_str 0 inputs s = (Ok ws, s') /\
    length ws = length fs /\
    (forall k x, fs !! k = Some x ->
       (ws !! k = Some true <->
        forall j y, j < k -> fs !! j = Some y -> (y < x)%Q)) /\
    (fs = [1 # 10; 1 # 2; 3 # 10; 7 # 10]%Q -> ws = [true; true; false; true]).
Proof.
  intros Hall Hf1 Hbest.
  destruct (report_epochs_gating table_str C inputs fs 0 s Hall) as (s' & Hrun).
  rewrite Hbest in Hrun.
  exists (gating (-1) fs), s'. split; [exact Hrun|].
  split; [apply gating_length|]. split.
  - intros k x Hk. rewrite (gating_spec _ _ _ _ Hk). split; [by intros [_ H]|].
    intros H. split; [|exact H].
    rewrite Forall_lookup in Hf1. destruct (Hf1 _ _ Hk) as [H0 _].
    apply (Qlt_le_trans _ 0); [reflexivity|exact H0].
  - intros ->. reflexivity.
Qed.

Lemma max_file_written_at_running_maxima_witness :
  let fs := [1 # 10; 1 # 2; 3 # 10; 7 # 10]%Q in
  let inputs := map (fun x => (sample_metrics x, sample_totals)) fs in
  Forall2 (fun inp x => well_formed 2 inp.1 inp.2 /\
                        change_f1_of inp.1 = Some x) inputs fs /\
  Forall is_f1 fs /\
  test_max_f1 sample = (-1)%Q /\
  exists s',
    report_epochs sample_table_str 0 inputs sample
    = (Ok [true; true; false; true], s').
Proof.
  cbv zeta.
  assert (H1 : Forall2 (fun inp x => well_formed 2 inp.1 inp.2 /\
                          change_f1_of inp.1 = Some x)
                 (map (fun x => (sample_metrics x, sample_totals))
                    [1 # 10; 1 # 2; 3 # 10; 7 # 10]%Q)
                 [1 # 10; 1 # 2; 3 # 10; 7 # 10]%Q).
  { repeat constructor. }
  assert (H2 : Forall is_f1 [1 # 10; 1 # 2; 3 # 10; 7 # 10]%Q).
  { repeat constructor; discriminate. }
  split; [exact H1|]. split; [exact H2|]. split; [reflexivity|].
  destruct (max_file_written_at_running_maxima sample_table_str 2 _ _ sample
              H1 H2 eq_refl) as (ws & s' & Hrun & _ & _ & Hws).
  exists s'. rewrite <- (Hws eq_refl). exact Hrun.
Defined.

(** The same run, evaluated. *)
Example max_file_after_four_epochs :
  let fs := [1 # 10; 1 # 2; 3 # 10; 7 # 10]%Q in
  let inputs := map (fun x => (sample_metrics x, sample_totals)) fs in
  let r := report_epochs sample_table_str 0 inputs sample in
  r.1 = Ok [true; true; false; true] /\
  test_max_f1 r.2 = (7 # 10)%Q /\
  files r.2 !! "logs/test_metrics_max.txt"
  = Some ("epoch:0/100 test" +:+ nl +:+ "<table>" +:+ nl +:+
          "epoch:1/100 test" +:+ nl +:+ "<table>" +:+ nl +:+
          "epoch:3/100 test" +:+ nl +:+ "<table>" +:+ nl) /\
  files r.2 !! "logs/test_metrics_rest.txt"
  = Some ("epoch:2/100 test" +:+ nl +:+ "<table>" +:+ nl).
Proof. vm_compute. repeat split. Qed.

(** ** Invariants of the methods *)

Lemma append_nil_r (a : string) : a +:+ "" = a.
Proof.
  induction a as [|ch a IH]; [reflexivity|].
  change (String ch (a +:+ "") = String ch a). by rewrite IH.
Qed.

Section PreservesFacts.

Context {St : Type} (R : relation St) `{!PreOrder R}.

Lemma preserves_ret {A} (a : A) : preserves R (ret a).
Proof. intros s. reflexivity. Qed.

Lemma preserves_raise {A} (e : Exn) : preserves R (raise e : M St A).
Proof. intros s. reflexivity. Qed.

Lemma preserves_lift {A} (r : Result A) : preserves R (lift r).
Proof. intros s. reflexivity. Qed.

Lemma preserves_gets {A} (f : St -> A) : preserves R (gets f).
Proof. intros s. reflexivity. Qed.

Lemma preserves_index {A} (l : list A) (i : nat) : preserves R (index l i).
Proof. intros s. unfold index. destruct (l !! i); reflexivity. Qed.

Lemma preserves_modify (f : St -> St) :
  (forall s, R s (f s)) -> preserves R (modify f).
Proof. intros Hf s. apply Hf. Qed.

Lemma preserves_bind {A B} (m : M St A) (k : A -> M St B) :
  preserves R m -> (forall a, preserves R (k a)) -> preserves R (bind m k).
Proof.
  intros Hm Hk s. unfold bind. specialize (Hm s).
  destruct (m s) as [[a|e] s']; simpl in *; [|exact Hm].
  etransitivity; [exact Hm|apply Hk].
Qed.

Lemma preserves_for_fold {A X} (xs : list X) (acc : A) (body : X -> A -> M St A) :
  (forall x a, preserves R (body x a)) -> preserves R (for_fold xs acc body).
Proof.
  intros Hbody. revert acc. induction xs as [|x xs IH]; intros acc; simpl.
  - apply preserves_ret.
  - apply preserves_bind; [apply Hbody | exact IH].
Qed.

Lemma preserves_for_each {X} (xs : list X) (body : X -> M St unit) :
  (forall x, preserves R (body x)) -> preserves R (for_each xs body).
Proof. intros H. apply preserves_for_fold. intros x _. apply H. Qed.

End PreservesFacts.

Section Evolution.

Context {Img : Type}.
Variable table_str : PrettyTable -> string.
Local Abbreviation St := (myTrain Img).
Local Abbreviation T := (M St).

Global Instance same_setup_preorder : PreOrder (@same_setup Img).
Proof.
  split.
  - intros s. by repeat split.
  - intros s1 s2 s3 (?&?&?&?&?&?) (?&?&?&?&?&?). repeat split; congruence.
Qed.

Global Instance same_classes_preorder : PreOrder (@same_classes Img).
Proof.
  split.
  - by intros s ph k.
  - intros s1 s2 s3 H1 H2 ph k. by rewrite H2, H1.
Qed.

Global Instance best_grows_preorder : PreOrder (@best_grows Img).
Proof.
  split.
  - intros s. apply Qle_refl.
  - intros s1 s2 s3. apply Qle_trans.
Qed.

Global Instance files_grow_preorder : PreOrder (@files_grow Img).
Proof.
  split.
  - intros s p c H. exists "". by rewrite append_nil_r.
  - intros s1 s2 s3 H1 H2 p c H.
    destruct (H1 p c H) as [u Hu]. destruct (H2 p _ Hu) as [v Hv].
    exists (u +:+ v). by rewrite <- append_assoc.
Qed.

Global Instance streams_grow_preorder : PreOrder (@streams_grow Img).
Proof.
  split.
  - intros s. split; reflexivity.
  - intros s1 s2 s3 [? ?] [? ?]. split; etransitivity; eassumption.
Qed.

Global Instance evolves_preorder : PreOrder (@evolves Img).
Proof.
  split.
  - intros s. split; [|split; [|split; [|split]]]; reflexivity.
  - intros s1 s2 s3 (A1 & B1 & C1 & D1 & E1) (A2 & B2 & C2 & D2 & E2).
    split; [|split; [|split; [|split]]]; etransitivity; eassumption.
Qed.

(** The assignments the methods make. *)

Lemma evolves_log (s : St) (entries : list (string * Float)) :
  evolves s (set_logged (logged s ++ entries) s).
Proof.
  split; [by repeat split|]. split; [by intros ph k; destruct ph, k|].
  split; [apply Qle_refl|]. split; [by intros p c H; exists ""; rewrite append_nil_r|].
  split; [by apply prefix_app_r | reflexivity].
Qed.

Lemma evolves_print (s : St) (lines : list string) :
  evolves s (set_stdout (stdout s ++ lines) s).
Proof.
  split; [by repeat split|]. split; [by intros ph k; destruct ph, k|].
  split; [apply Qle_refl|]. split; [by intros p c H; exists ""; rewrite append_nil_r|].
  split; [reflexivity | by apply prefix_app_r].
Qed.

Lemma evolves_append (s : St) (file_name text : string) :
  evolves s
    (set_files
       (<[file_name := default "" (files s !! file_name) +:+ text]> (files s)) s).
Proof.
  split; [by repeat split|]. split; [by intros ph k; destruct ph, k|].
  split; [apply Qle_refl|]. split; [|split; reflexivity].
  intros p c H. simpl. destruct (decide (p = file_name)) as [->|Hne].
  - rewrite lookup_insert_eq, H. by exists text.
  - rewrite lookup_insert_ne by done. exists "". by rewrite append_nil_r.
Qed.

Lemma evolves_set_metric (s : St) ph k (m' : Metric.t) :
  Metric.num_classes m' = Metric.num_classes (metric ph k s) ->
  evolves s (set_metric ph k m' s).
Proof.
  intros Hm.
  split; [by destruct ph; repeat split|].
  split; [by intros ph' k'; destruct ph, k, ph', k'|].
  split; [destruct ph; apply Qle_refl|].
  split; [by intros p c H; exists ""; rewrite append_nil_r; destruct ph|].
  split; destruct ph; reflexivity.
Qed.

Lemma evolves_best (s : St) (x : Q) :
  (test_max_f1 s <= x)%Q -> evolves s (set_test_max_f1 x s).
Proof.
  intros Hx.
  split; [by repeat split|]. split; [by intros ph k; destruct ph, k|].
  split; [exact Hx|]. split; [by intros p c H; exists ""; rewrite append_nil_r|].
  split; reflexivity.
Qed.

(** The primitive effects. *)

Lemma metric_call_evolves ph k pred mask :
  preserves evolves (metric_call ph k pred mask : T unit).
Proof.
  intros s. unfold metric_call, bind, gets, lift, modify. simpl.
  destruct (Metric.update (metric ph k s) pred mask) as [m'|e] eqn:Hup; simpl.
  - apply evolves_set_metric. by apply update_classes in Hup.
  - reflexivity.
Qed.

Lemma metric_reset_evolves ph k :
  preserves evolves (metric_reset ph k : T unit).
Proof. intros s. by apply evolves_set_metric. Qed.

Lemma log_evolves name v : preserves evolves (log name v : T unit).
Proof. intros s. apply evolves_log. Qed.

Lemma print_evolves line : preserves evolves (print line : T unit).
Proof. intros s. apply evolves_print. Qed.

Lemma write_evolves file_name text :
  preserves evolves (write file_name text : T unit).
Proof. intros s. apply evolves_append. Qed.

Lemma open_append_evolves file_name :
  preserves evolves (open_append file_name : T unit).
Proof.
  intros s. unfold open_append, modify. simpl.
  rewrite <- (append_nil_r (default "" (files s !! file_name))).
  apply evolves_append.
Qed.

(** The gate of the test branch only ever raises the best. *)
Lemma gate_evolves {A} (x : Q) (a b : A) :
  preserves evolves
    (best <- gets test_max_f1 ;;
     if Qgtb x best then modify (set_test_max_f1 x) ;; ret a else ret b : T A).
Proof.
  intros s. unfold bind, gets. simpl.
  destruct (Qgtb x (test_max_f1 s)) eqn:Hg; simpl; [|reflexivity].
  apply evolves_best. apply Qlt_le_weak. by apply Qgtb_true.
Qed.

End Evolution.

(** One step of a proof that a method preserves [evolves]. *)
Ltac evolves_step :=
  first
    [ apply gate_evolves
    | apply metric_call_evolves
    | apply metric_reset_evolves
    | apply log_evolves
    | apply print_evolves
    | apply write_evolves
    | apply open_append_evolves
    | apply (preserves_ret evolves)
    | apply (preserves_gets evolves)
    | apply (preserves_lift evolves)
    | apply (preserves_raise evolves)
    | apply (preserves_index evolves)
    | apply (preserves_for_fold evolves); intros
    | apply (preserves_for_each evolves); intros
    | apply (preserves_bind evolves); [|intros]
    | match goal with
      | |- preserves _ (if ?c then _ else _) => destruct c
      | |- preserves _ (let '(_, _) := ?b in _) => destruct b
      end ].

Section EvolutionOfMethods.

Context {Img : Type}.
Variable table_str : PrettyTable -> string.
Local Abbreviation St := (myTrain Img).
Local Abbreviation T := (M St).

Lemma output_evolves metrics totals mode :
  preserves evolves (output table_str metrics totals mode : T unit).
Proof. unfold output. repeat evolves_step. Qed.

Lemma training_step_evolves (batch : Batch) (batch_idx : nat) :
  preserves evolves (training_step batch batch_idx : T Q).
Proof.
  destruct batch as [[imgA imgB] mask]. unfold training_step, forward.
  repeat evolves_step.
Qed.

Lemma validation_step_evolves (batch : Batch) (batch_idx : nat) :
  preserves evolves (validation_step batch batch_idx : T Q).
Proof.
  destruct batch as [[imgA imgB] mask]. unfold validation_step, forward.
  repeat evolves_step.
Qed.

Lemma on_train_epoch_end_evolves :
  preserves evolves (on_train_epoch_end table_str : T unit).
Proof.
  unfold on_train_epoch_end.
  repeat first [apply output_evolves | evolves_step].
Qed.

Lemma test_evolves : preserves evolves (test table_str : T Q).
Proof.
  unfold test, forward.
  repeat first [apply output_evolves | evolves_step].
Qed.

Lemma on_validation_epoch_end_evolves :
  preserves evolves (on_validation_epoch_end table_str : T unit).
Proof.
  unfold on_validation_epoch_end.
  repeat first [apply output_evolves | apply test_evolves | evolves_step].
Qed.

Lemma do_call_evolves (c : @Call Img) :
  preserves evolves (do_call table_str c).
Proof.
  destruct c; simpl;
    repeat first [ apply output_evolves | apply training_step_evolves
                 | apply validation_step_evolves
                 | apply on_train_epoch_end_evolves
                 | apply on_validation_epoch_end_evolves | apply test_evolves
                 | evolves_step ].
Qed.

Lemma after_calls_evolves (cs : list (@Call Img)) (s : St) :
  evolves s (after_calls table_str cs s).
Proof.
  revert s. induction cs as [|c cs IH]; intros s; [reflexivity|].
  etransitivity; [apply (do_call_evolves c s)|apply IH].
Qed.

(** X1: over any history of calls of the methods of the harness,
    whatever their arguments and whether they return or raise, the best
    test F1 never decreases. *)
Theorem best_never_decreases (cs : list (@Call Img)) (s : St) :
  (test_max_f1 s <= test_max_f1 (after_calls table_str cs s))%Q.
Proof. apply (after_calls_evolves cs s). Qed.

(** X2: over any history of calls, a file that exists keeps existing
    and keeps its content as a prefix of its new content: the methods
    only ever append. *)
Theorem files_only_grow (cs : list (@Call Img)) (s : St) (p c : string) :
  files s !! p = Some c ->
  exists suffix, files (after_calls table_str cs s) !! p = Some (c +:+ suffix).
Proof. apply (after_calls_evolves cs s). Qed.

(** X3: over any history of calls, the configuration, the log
    directory, the model, the loss, the test loader and the epoch
    counter are what they were: no method assigns them. *)
Theorem setup_is_never_assigned (cs : list (@Call Img)) (s : St) :
  let s' := after_calls table_str cs s in
  cfg s' = cfg s /\ log_dir s' = log_dir s /\ net s' = net s /\
  loss s' = loss s /\ test_loader s' = test_loader s /\
  current_epoch s' = current_epoch s.
Proof. apply (after_calls_evolves cs s). Qed.

(** X4: every state reached from a fresh harness over [C] classes by
    any history of calls has all fifteen accumulators over [C]
    classes. *)
Theorem class_counts_are_invariant (cs : list (@Call Img)) (c : Config)
    (dir : option string) (C : nat) (model : Img -> Img -> Scores)
    (criterion : Scores -> Mask -> Q) (loader : list Batch) :
  classes_ok C (after_calls table_str cs (init c dir C model criterion loader)).
Proof.
  intros ph k.
  destruct (after_calls_evolves cs (init c dir C model criterion loader))
    as (_ & Hcl & _).
  rewrite (Hcl ph k). by destruct ph, k.
Qed.


End EvolutionOfMethods.

Lemma files_only_grow_witness :
  let s := (output sample_table_str (sample_metrics (1 # 2)) sample_totals
              "train" sample).2 in
  let old := "epoch:0/100 train" +:+ nl +:+ "<table>" +:+ nl in
  files s !! "logs/train_metrics.txt" = Some old /\
  exists suffix,
    files (after_calls sample_table_str
             [call_on_validation_epoch_end; call_on_train_epoch_end] s)
      !! "logs/train_metrics.txt" = Some (old +:+ suffix).
Proof.
  cbv zeta. split; [reflexivity|].
  apply (files_only_grow sample_table_str). reflexivity.
Defined.

(** A history on the sample harness, evaluated. *)
Example sample_history :
  let s' := after_calls sample_table_str
              [call_training_step sample_batch 0; call_on_validation_epoch_end;
               call_on_train_epoch_end] sample in
  test_max_f1 s' = (2 # 3)%Q /\
  files s' !! "logs/train_metrics.txt"
  = Some ("epoch:0/100 val" +:+ nl +:+ "<table>" +:+ nl +:+
          "epoch:0/100 train" +:+ nl +:+ "<table>" +:+ nl) /\
  stdout s' = ["val"; "<table>"; "test"; "<table>"] /\
  map fst (logged s')
  = ["tr_loss"; "val_oa"; "val_prec"; "val_recall"; "val_f1"; "val_miou";
     "val_change_f1"; "test_change_f1"; "tr_oa"; "tr_prec"; "tr_recall";
     "tr_f1"; "tr_miou"; "tr_change_f1"].
Proof. vm_compute. repeat split. Qed.

(** ** The per-batch steps *)

Lemma update_ok_valid (m m' : Metric.t) (pred mask : list nat) :
  Metric.update m pred mask = Ok m' ->
  Metric.valid_batch (Metric.num_classes m) pred mask.
Proof.
  unfold Metric.update, Metric.valid_batch.
  destruct (length pred =? length mask) eqn:Hlen; simpl; [|discriminate].
  destruct (Metric.in_range (Metric.num_classes m) pred); simpl; [|discriminate].
  destruct (Metric.in_range (Metric.num_classes m) mask); simpl; [|discriminate].
  intros _. apply Nat.eqb_eq in Hlen. by repeat split.
Qed.

Section Steps.

Context {Img : Type}.
Local Abbreviation St := (myTrain Img).
Local Abbreviation T := (M St).

Global Instance only_phase_preorder (ph : Phase) : PreOrder (@only_phase Img ph).
Proof.
  split.
  - intros s. unfold only_phase. by destruct s, ph.
  - intros s1 s2 s3 H1 H2. unfold only_phase in *.
    rewrite H2, H1. by destruct ph.
Qed.

Lemma only_phase_fields (ph : Phase) (s s' : St) :
  only_phase ph s s' ->
  files s' = files s /\ stdout s' = stdout s /\
  test_max_f1 s' = test_max_f1 s /\
  forall ph', ph' <> ph -> get_phase ph' s' = get_phase ph' s.
Proof.
  intros H. rewrite H.
  split; [by destruct ph|]. split; [by destruct ph|]. split; [by destruct ph|].
  intros ph' Hne. by destruct ph, ph'.
Qed.

Lemma metric_call_only_phase ph k pred mask :
  preserves (only_phase ph) (metric_call ph k pred mask : T unit).
Proof.
  intros s. unfold metric_call, bind, gets, lift, modify. simpl.
  destruct (Metric.update (metric ph k s) pred mask) as [m'|e]; simpl.
  - unfold only_phase. by destruct ph.
  - reflexivity.
Qed.

Lemma log_only_phase ph name v :
  preserves (only_phase ph) (log name v : T unit).
Proof. intros s. unfold only_phase. by destruct ph. Qed.

Lemma training_step_only_phase (batch : Batch) (batch_idx : nat) :
  preserves (only_phase Train) (training_step batch batch_idx : T Q).
Proof.
  destruct batch as [[imgA imgB] mask]. unfold training_step, forward.
  repeat first
    [ apply metric_call_only_phase | apply log_only_phase
    | apply (preserves_ret (only_phase Train))
    | apply (preserves_gets (only_phase Train))
    | apply (preserves_lift (only_phase Train))
    | apply (preserves_bind (only_phase Train)); [|intros] ].
Qed.

Lemma validation_step_only_phase (batch : Batch) (batch_idx : nat) :
  preserves (only_phase Val) (validation_step batch batch_idx : T Q).
Proof.
  destruct batch as [[imgA imgB] mask]. unfold validation_step, forward.
  repeat first
    [ apply metric_call_only_phase | apply log_only_phase
    | apply (preserves_ret (only_phase Val))
    | apply (preserves_gets (only_phase Val))
    | apply (preserves_lift (only_phase Val))
    | apply (preserves_bind (only_phase Val)); [|intros] ].
Qed.

(** X6: whatever the batch and whether it returns or raises, a
    training step leaves the files, the console, the best test F1 and
    the validation and test accumulators as they were, and a validation
    step leaves the files, the console, the best test F1 and the
    training and test accumulators as they were. *)
Theorem steps_touch_only_their_accumulators
    (batch : Batch) (batch_idx : nat) (s : St) :
  let s1 := (training_step batch batch_idx s).2 in
  let s2 := (validation_step batch batch_idx s).2 in
  (files s1 = files s /\ stdout s1 = stdout s /\
   test_max_f1 s1 = test_max_f1 s /\ val s1 = val s /\ test_ s1 = test_ s) /\
  (files s2 = files s /\ stdout s2 = stdout s /\
   test_max_f1 s2 = test_max_f1 s /\ tr s2 = tr s /\ test_ s2 = test_ s).
Proof.
  cbv zeta. split.
  - destruct (only_phase_fields Train s _ (training_step_only_phase batch batch_idx s))
      as (Hf & Ho & Hb & Hph).
    repeat split; try assumption.
    + apply (Hph Val). discriminate.
    + apply (Hph Test). discriminate.
  - destruct (only_phase_fields Val s _ (validation_step_only_phase batch batch_idx s))
      as (Hf & Ho & Hb & Hph).
    repeat split; try assumption.
    + apply (Hph Train). discriminate.
    + apply (Hph Test). discriminate.
Qed.

Lemma bind_assoc5 {A} (a b c d e : T unit) (k : T A) (s : St) :
  ((a ;; b ;; c ;; d ;; e) ;; k) s = (a ;; b ;; c ;; d ;; e ;; k) s.
Proof.
  unfold bind.
  destruct (a s) as [[[]|?] s1]; [|reflexivity].
  destruct (b s1) as [[[]|?] s2]; [|reflexivity].
  destruct (c s2) as [[[]|?] s3]; [|reflexivity].
  destruct (d s3) as [[[]|?] s4]; [|reflexivity].
  destruct (e s4) as [[[]|?] s5]; reflexivity.
Qed.

(** The five accumulators of a phase take a valid batch one after the
    other, in any order of the kinds. *)
Lemma five_calls_ok C ph (k1 k2 k3 k4 k5 : Kind) pred mask (s : St) :
  classes_ok C s -> Metric.valid_batch C pred mask ->
  exists m1 m2 m3 m4 m5,
    let s1 := set_metric ph k1 m1 s in
    let s2 := set_metric ph k2 m2 s1 in
    let s3 := set_metric ph k3 m3 s2 in
    let s4 := set_metric ph k4 m4 s3 in
    let s5 := set_metric ph k5 m5 s4 in
    Metric.update (metric ph k1 s) pred mask = Ok m1 /\
    Metric.update (metric ph k2 s1) pred mask = Ok m2 /\
    Metric.update (metric ph k3 s2) pred mask = Ok m3 /\
    Metric.update (metric ph k4 s3) pred mask = Ok m4 /\
    Metric.update (metric ph k5 s4) pred mask = Ok m5 /\
    (metric_call ph k1 pred mask ;; metric_call ph k2 pred mask ;;
     metric_call ph k3 pred mask ;; metric_call ph k4 pred mask ;;
     metric_call ph k5 pred mask) s = (Ok tt, s5).
Proof.
  intros Hok Hv.
  assert (Hstep : forall (s0 : St) k, classes_ok C s0 ->
            exists m', Metric.update (metric ph k s0) pred mask = Ok m' /\
                       metric_call ph k pred mask s0
                       = (Ok tt, set_metric ph k m' s0) /\
                       classes_ok C (set_metric ph k m' s0)).
  { intros s0 k Hok0.
    destruct (metric_call_ok ph k pred mask s0) as (m' & Hup & Hcall);
      [by rewrite (Hok0 ph k)|].
    exists m'. split; [exact Hup|]. split; [exact Hcall|].
    intros ph' k'.
    destruct (evolves_set_metric s0 ph k m' (update_classes _ _ _ _ Hup))
      as (_ & Hcl & _).
    rewrite (Hcl ph' k'). apply Hok0. }
  destruct (Hstep s k1 Hok) as (m1 & U1 & E1 & Hok1).
  destruct (Hstep _ k2 Hok1) as (m2 & U2 & E2 & Hok2).
  destruct (Hstep _ k3 Hok2) as (m3 & U3 & E3 & Hok3).
  destruct (Hstep _ k4 Hok3) as (m4 & U4 & E4 & Hok4).
  destruct (Hstep _ k5 Hok4) as (m5 & U5 & E5 & _).
  exists m1, m2, m3, m4, m5. cbv zeta.
  repeat (split; [assumption|]).
  erewrite bind_ok by exact E1. erewrite bind_ok by exact E2.
  erewrite bind_ok by exact E3. erewrite bind_ok by exact E4. exact E5.
Qed.

(** A training step on a batch that the model labels and the
    accumulators accept. *)
Lemma training_step_ok (C : nat) (imgA imgB : Img)
    (mask pred : Mask) (batch_idx : nat) (s : St) :
  classes_ok C s ->
  argmax_dim1 (net s imgA imgB) = Ok pred ->
  Metric.valid_batch C pred mask ->
  exists s',
    training_step (imgA, imgB, mask) batch_idx s
    = (Ok (loss s (net s imgA imgB) mask), s') /\
    (forall k, Metric.update (metric Train k s) pred mask
               = Ok (metric Train k s')) /\
    logged s' = logged s ++ [("tr_loss", Num (loss s (net s imgA imgB) mask))].
Proof.
  intros Hok Hp Hv.
  destruct (five_calls_ok C Train OA Prec Recall F1 IoU pred mask s Hok Hv)
    as (m1 & m2 & m3 & m4 & m5 & U1 & U2 & U3 & U4 & U5 & Hcalls).
  eexists. split; [|split].
  - unfold training_step, forward.
    erewrite bind_ok by reflexivity. erewrite bind_ok by reflexivity.
    erewrite bind_ok by (unfold lift; rewrite Hp; reflexivity).
    rewrite <- bind_assoc5. erewrite bind_ok by exact Hcalls.
    reflexivity.
  - intros []; simpl; assumption.
  - reflexivity.
Qed.

(** A validation step on such a batch. *)
Lemma validation_step_ok (C : nat) (imgA imgB : Img)
    (mask pred : Mask) (batch_idx : nat) (s : St) :
  classes_ok C s ->
  argmax_dim1 (net s imgA imgB) = Ok pred ->
  Metric.valid_batch C pred mask ->
  exists s',
    validation_step (imgA, imgB, mask) batch_idx s
    = (Ok (loss s (net s imgA imgB) mask), s') /\
    (forall k, Metric.update (metric Val k s) pred mask
               = Ok (metric Val k s')) /\
    logged s' = logged s ++ [("val_loss", Num (loss s (net s imgA imgB) mask))].
Proof.
  intros Hok Hp Hv.
  destruct (five_calls_ok C Val OA Prec Recall F1 IoU pred mask s Hok Hv)
    as (m1 & m2 & m3 & m4 & m5 & U1 & U2 & U3 & U4 & U5 & Hcalls).
  eexists. split; [|split].
  - unfold validation_step, forward.
    erewrite bind_ok by reflexivity. erewrite bind_ok by reflexivity.
    erewrite bind_ok by (unfold lift; rewrite Hp; reflexivity).
    rewrite <- bind_assoc5. erewrite bind_ok by exact Hcalls.
    reflexivity.
  - intros []; simpl; assumption.
  - reflexivity.
Qed.

(** X7: on a batch that the model labels and the accumulators accept,
    a training step returns the loss of the raw predictions against the
    mask, feeds the arg-max prediction and the mask to each of the five
    training accumulators, and emits the loss as [tr_loss]. *)
Theorem training_step_on_valid_batch (C : nat) (imgA imgB : Img)
    (mask pred : Mask) (batch_idx : nat) (s : St) :
  classes_ok C s ->
  argmax_dim1 (net s imgA imgB) = Ok pred ->
  Metric.valid_batch C pred mask ->
  exists s',
    training_step (imgA, imgB, mask) batch_idx s
    = (Ok (loss s (net s imgA imgB) mask), s') /\
    (forall k, Metric.update (metric Train k s) pred mask
               = Ok (metric Train k s')) /\
    logged s' = logged s ++ [("tr_loss", Num (loss s (net s imgA imgB) mask))].
Proof.
  intros Hok Hp Hv.
  destruct (training_step_ok C imgA imgB mask pred batch_idx s Hok Hp Hv)
    as (s' & Hrun & Hup & Hlog).
  exists s'. split; [exact Hrun|]. split; [exact Hup|exact Hlog].
Qed.

(** X8: the same for a validation step, on the validation accumulators
    and under the name [val_loss]. *)
Theorem validation_step_on_valid_batch (C : nat) (imgA imgB : Img)
    (mask pred : Mask) (batch_idx : nat) (s : St) :
  classes_ok C s ->
  argmax_dim1 (net s imgA imgB) = Ok pred ->
  Metric.valid_batch C pred mask ->
  exists s',
    validation_step (imgA, imgB, mask) batch_idx s
    = (Ok (loss s (net s imgA imgB) mask), s') /\
    (forall k, Metric.update (metric Val k s) pred mask
               = Ok (metric Val k s')) /\
    logged s' = logged s ++ [("val_loss", Num (loss s (net s imgA imgB) mask))].
Proof.
  intros Hok Hp Hv.
  destruct (validation_step_ok C imgA imgB mask pred batch_idx s Hok Hp Hv)
    as (s' & Hrun & Hup & Hlog).
  exists s'. split; [exact Hrun|]. split; [exact Hup|exact Hlog].
Qed.

(** X9: in a harness whose accumulators are all over [C] classes, a
    step that raises leaves the whole state exactly as it was: nothing
    is logged and no accumulator has taken the batch. *)
Theorem rejected_batch_leaves_state (C : nat) (batch : Batch)
    (batch_idx : nat) (s : St) :
  classes_ok C s ->
  (forall e s', training_step batch batch_idx s = (Raise e, s') -> s' = s) /\
  (forall e s', validation_step batch batch_idx s = (Raise e, s') -> s' = s).
Proof.
  intros Hok. destruct batch as [[imgA imgB] mask].
  destruct (argmax_dim1 (net s imgA imgB)) as [pred|e0] eqn:Hp.
  - split; intros e s' Hrun.
    + destruct (Metric.update (metric Train OA s) pred mask) as [m|e1] eqn:Hup.
      * apply update_ok_valid in Hup. rewrite (Hok Train OA) in Hup.
        destruct (training_step_ok C imgA imgB mask pred
                    batch_idx s Hok Hp Hup) as (s1 & Hrun1 & _).
        rewrite Hrun1 in Hrun. discriminate Hrun.
      * unfold training_step, forward in Hrun.
        erewrite bind_ok in Hrun by reflexivity.
        erewrite bind_ok in Hrun by reflexivity.
        erewrite bind_ok in Hrun by (unfold lift; rewrite Hp; reflexivity).
        erewrite bind_raise in Hrun; [by injection Hrun|].
        unfold metric_call. erewrite bind_ok by reflexivity.
        apply bind_raise. unfold lift. by rewrite Hup.
    + destruct (Metric.update (metric Val OA s) pred mask) as [m|e1] eqn:Hup.
      * apply update_ok_valid in Hup. rewrite (Hok Val OA) in Hup.
        destruct (validation_step_ok C imgA imgB mask pred
                    batch_idx s Hok Hp Hup) as (s1 & Hrun1 & _).
        rewrite Hrun1 in Hrun. discriminate Hrun.
      * unfold validation_step, forward in Hrun.
        erewrite bind_ok in Hrun by reflexivity.
        erewrite bind_ok in Hrun by reflexivity.
        erewrite bind_ok in Hrun by (unfold lift; rewrite Hp; reflexivity).
        erewrite bind_raise in Hrun; [by injection Hrun|].
        unfold metric_call. erewrite bind_ok by reflexivity.
        apply bind_raise. unfold lift. by rewrite Hup.
  - split; intros e s' Hrun.
    + unfold training_step, forward in Hrun.
      erewrite bind_ok in Hrun by reflexivity.
      erewrite bind_ok in Hrun by reflexivity.
      erewrite bind_raise in Hrun; [by injection Hrun|].
      unfold lift. by rewrite Hp.
    + unfold validation_step, forward in Hrun.
      erewrite bind_ok in Hrun by reflexivity.
      erewrite bind_ok in Hrun by reflexivity.
      erewrite bind_raise in Hrun; [by injection Hrun|].
      unfold lift. by rewrite Hp.
Qed.

End Steps.

Lemma steps_on_valid_batch_inputs :
  argmax_dim1 (net sample tt tt) = Ok [0; 1; 1; 0] /\
  Metric.valid_batch 2 [0; 1; 1; 0] [0; 1; 0; 0].
Proof. split; [reflexivity|repeat split]. Qed.

Lemma training_step_on_valid_batch_witness :
  classes_ok 2 sample /\
  argmax_dim1 (net sample tt tt) = Ok [0; 1; 1; 0] /\
  Metric.valid_batch 2 [0; 1; 1; 0] [0; 1; 0; 0] /\
  exists s',
    training_step sample_batch 0 sample = (Ok (1 # 4)%Q, s') /\
    tr_f1 s' = Metric.mk 2 [2; 1; 0; 1] /\
    logged s' = [("tr_loss", Num (1 # 4))].
Proof.
  split; [exact sample_classes_ok|].
  split; [apply steps_on_valid_batch_inputs|].
  split; [apply steps_on_valid_batch_inputs|].
  destruct (training_step_on_valid_batch 2 tt tt [0; 1; 0; 0] [0; 1; 1; 0] 0
              sample sample_classes_ok
              (proj1 steps_on_valid_batch_inputs)
              (proj2 steps_on_valid_batch_inputs)) as (s' & Hrun & Hup & Hlog).
  exists s'. split; [exact Hrun|]. split; [|exact Hlog].
  specialize (Hup F1). by injection Hup.
Defined.

Lemma validation_step_on_valid_batch_witness :
  classes_ok 2 sample /\
  argmax_dim1 (net sample tt tt) = Ok [0; 1; 1; 0] /\
  Metric.valid_batch 2 [0; 1; 1; 0] [0; 1; 0; 0] /\
  exists s',
    validation_step sample_batch 0 sample = (Ok (1 # 4)%Q, s') /\
    val_iou s' = Metric.mk 2 [2; 1; 0; 1] /\
    logged s' = [("val_loss", Num (1 # 4))].
Proof.
  split; [exact sample_classes_ok|].
  split; [apply steps_on_valid_batch_inputs|].
  split; [apply steps_on_valid_batch_inputs|].
  destruct (validation_step_on_valid_batch 2 tt tt [0; 1; 0; 0] [0; 1; 1; 0] 0
              sample sample_classes_ok
              (proj1 steps_on_valid_batch_inputs)
              (proj2 steps_on_valid_batch_inputs)) as (s' & Hrun & Hup & Hlog).
  exists s'. split; [exact Hrun|]. split; [|exact Hlog].
  specialize (Hup IoU). by injection Hup.
Defined.

Lemma rejected_batch_leaves_state_witness :
  classes_ok 2 sample /\
  (training_step (tt, tt, [0; 1; 2; 0]) 0 sample).1 = Raise ValueError /\
  (training_step (tt, tt, [0; 1; 2; 0]) 0 sample).2 = sample.
Proof.
  split; [exact sample_classes_ok|]. split; [reflexivity|].
  apply (proj1 (rejected_batch_leaves_state 2 (tt, tt, [0; 1; 2; 0]) 0 sample
                  sample_classes_ok) ValueError).
  assert (H1 : (training_step (tt, tt, [0; 1; 2; 0]) 0 sample).1
               = Raise ValueError) by reflexivity.
  destruct (training_step (tt, tt, [0; 1; 2; 0]) 0 sample) as [r s'].
  simpl in *. by subst r.
Defined.

(** ** More on the reports *)

Section ReportDetails.

Context {Img : Type}.
Variable table_str : PrettyTable -> string.
Local Abbreviation St := (myTrain Img).
Local Abbreviation T := (M St).

(** X10: whatever the run directory, the three report files are three
    different paths. *)
Theorem report_files_are_distinct (s : St) :
  train_file s <> max_file s /\ train_file s <> rest_file s /\
  max_file s <> rest_file s.
Proof.
  unfold train_file, max_file, rest_file.
  repeat split; intros H;
    apply path_join_inj in H; (discriminate H || reflexivity).
Qed.

(** X11: on well-formed arguments, [output] prints the mode and the
    rendered table, in this order, in modes "val" and "test" (in mode
    "test" also when it then raises for want of a change class), and
    prints nothing in any other mode. *)
Theorem output_prints_in_val_and_test
    (metrics : list (list Q)) (totals : list (string * Float)) (C : nat)
    (mode : string) (s : St) :
  well_formed C metrics totals ->
  let s' := (output table_str metrics totals mode s).2 in
  (mode = "val" \/ mode = "test" ->
   stdout s' = stdout s ++ [mode; table_str (report_table metrics totals)]) /\
  (mode <> "val" -> mode <> "test" -> stdout s' = stdout s).
Proof.
  intros Hwf. cbv zeta.
  assert (Hp : stdout (output table_str metrics totals mode s).2
               = stdout (printed table_str mode (report_table metrics totals) s)).
  { destruct (decide (mode = "test")) as [->|Hne].
    - destruct (change_f1_of metrics) as [x|] eqn:Hx.
      + rewrite (output_test _ _ _ C x) by done. cbv zeta.
        by destruct (Qgtb x (test_max_f1 s)).
      + by rewrite (output_test_raise _ _ _ C).
    - by rewrite (output_other _ _ _ C). }
  rewrite Hp. unfold printed. split.
  - intros [-> | ->]; reflexivity.
  - intros H1 H2.
    by rewrite (bool_decide_eq_false_2 _ H1), (bool_decide_eq_false_2 _ H2).
Qed.

(** *** [on_train_epoch_end], in full *)

Lemma output_train_state metrics totals C (s s1 : St) :
  well_formed C metrics totals ->
  output table_str metrics totals "train" s = (Ok tt, s1) ->
  s1 = report_written table_str (train_file s) "train"
         (report_table metrics totals) s.
Proof.
  intros Hwf. rewrite (output_other _ _ _ C) by done. by intros [= <-].
Qed.

(** X12: in a harness over [C >= 2] classes, [on_train_epoch_end]
    returns normally; it appends the training report to
    [train_metrics.txt], prints nothing, emits the overall accuracy, the
    four class means and the change-class F1 under the names [tr_oa],
    [tr_prec], [tr_recall], [tr_f1], [tr_miou], [tr_change_f1], in this
    order, and leaves the best test F1 and the validation and test
    accumulators as they were. *)
Theorem train_epoch_end_effects (C : nat) (s : St) :
  classes_ok C s -> 2 <= C ->
  exists x s',
    Metric.compute_f1 (tr_f1 s) !! 1 = Some x /\
    on_train_epoch_end table_str s = (Ok tt, s') /\
    logged s' =
      logged s ++
      [("tr_oa", Num (Metric.compute_accuracy (tr_oa s)));
       ("tr_prec", np_mean (Metric.compute_precision (tr_prec s)));
       ("tr_recall", np_mean (Metric.compute_recall (tr_recall s)));
       ("tr_f1", np_mean (Metric.compute_f1 (tr_f1 s)));
       ("tr_miou", np_mean (Metric.compute_iou (tr_iou s)));
       ("tr_change_f1", Num x)] /\
    files s' =
      <[train_file s :=
          (default "" (files s !! train_file s)
           +:+ epoch_header (current_epoch s) (epoch (cfg s)) "train")
          +:+ (table_str (report_table (phase_metrics (tr s))
                            (phase_totals "tr_" (tr s))) +:+ nl)]> (files s) /\
    stdout s' = stdout s /\ test_max_f1 s' = test_max_f1 s /\
    val s' = val s /\ test_ s' = test_ s.
Proof.
  intros Hok HC.
  destruct (on_train_epoch_end_ok table_str C s Hok HC)
    as (x & s1 & Hx & Hout & Hrun).
  pose proof (phase_metrics_well_formed C "tr_" (tr s)
                (classes_ok_phase C Train s Hok)) as Hwf.
  apply (output_train_state _ _ C) in Hout; [|exact Hwf]. subst s1.
  exists x. eexists. split; [exact Hx|]. split; [exact Hrun|].
  repeat split.
Qed.

(** X13: in a harness over fewer than two classes,
    [on_train_epoch_end] raises [IndexError] only after it has appended
    the training report to [train_metrics.txt] and emitted the five
    aggregates; [tr_change_f1] is not emitted and the training
    accumulators are not reset. *)
Theorem train_epoch_end_without_change_class (C : nat) (s : St) :
  classes_ok C s -> C < 2 ->
  exists s',
    on_train_epoch_end table_str s = (Raise IndexError, s') /\
    logged s' = logged s ++ phase_totals "tr_" (tr s) /\
    files s' =
      <[train_file s :=
          (default "" (files s !! train_file s)
           +:+ epoch_header (current_epoch s) (epoch (cfg s)) "train")
          +:+ (table_str (report_table (phase_metrics (tr s))
                            (phase_totals "tr_" (tr s))) +:+ nl)]> (files s) /\
    tr s' = tr s.
Proof.
  intros Hok HC.
  destruct (phase_no_change_class C (tr s) (Hok Train F1) HC) as (Hx & _).
  pose proof (phase_metrics_well_formed C "tr_" (tr s)
                (classes_ok_phase C Train s Hok)) as Hwf.
  pose proof (output_other table_str _ _ C "train" s Hwf
                ltac:(discriminate)) as Hout.
  eexists. split.
  - unfold on_train_epoch_end.
    do 5 (erewrite bind_ok by reflexivity).
    erewrite bind_ok by exact Hout.
    erewrite bind_ok by apply log_entries.
    erewrite bind_ok by reflexivity.
    apply bind_raise. unfold index.
    replace (Metric.compute_f1 (tr_f1 s) !! 1) with (@None Q)
      by (symmetry; exact Hx).
    reflexivity.
  - repeat split.
Qed.

(** X14: in a harness over fewer than two classes,
    [on_validation_epoch_end] raises [IndexError] after the validation
    report and the five aggregates, before [val_change_f1], the resets
    and the embedded test pass: the validation and test accumulators
    and the best test F1 are as they were, and no test report is
    written. *)
Theorem validation_epoch_end_without_change_class (C : nat) (s : St) :
  classes_ok C s -> C < 2 ->
  exists s',
    on_validation_epoch_end table_str s = (Raise IndexError, s') /\
    logged s' = logged s ++ phase_totals "val_" (val s) /\
    files s' =
      <[train_file s :=
          (default "" (files s !! train_file s)
           +:+ epoch_header (current_epoch s) (epoch (cfg s)) "val")
          +:+ (table_str (report_table (phase_metrics (val s))
                            (phase_totals "val_" (val s))) +:+ nl)]> (files s) /\
    val s' = val s /\ test_ s' = test_ s /\ test_max_f1 s' = test_max_f1 s.
Proof.
  intros Hok HC.
  destruct (phase_no_change_class C (val s) (Hok Val F1) HC) as (Hx & _).
  pose proof (phase_metrics_well_formed C "val_" (val s)
                (classes_ok_phase C Val s Hok)) as Hwf.
  pose proof (output_other table_str _ _ C "val" s Hwf
                ltac:(discriminate)) as Hout.
  eexists. split.
  - unfold on_validation_epoch_end.
    do 5 (erewrite bind_ok by reflexivity).
    erewrite bind_ok by exact Hout.
    erewrite bind_ok by apply log_entries.
    erewrite bind_ok by reflexivity.
    apply bind_raise. unfold index.
    replace (Metric.compute_f1 (val_f1 s) !! 1) with (@None Q)
      by (symmetry; exact Hx).
    reflexivity.
  - repeat split.
Qed.

End ReportDetails.

Lemma output_prints_in_val_and_test_witness :
  well_formed 2 (sample_metrics (1 # 2)) sample_totals /\
  ("val" = "val" \/ "val" = "test") /\
  stdout (output sample_table_str (sample_metrics (1 # 2)) sample_totals
            "val" sample).2 = ["val"; "<table>"] /\
  "train" <> "val" /\ "train" <> "test" /\
  stdout (output sample_table_str (sample_metrics (1 # 2)) sample_totals
            "train" sample).2 = [].
Proof.
  split; [apply sample_metrics_well_formed|]. split; [by left|].
  split.
  { apply (proj1 (output_prints_in_val_and_test sample_table_str _ _ 2 "val"
                    sample (sample_metrics_well_formed _))). by left. }
  split; [discriminate|]. split; [discriminate|].
  apply (proj2 (output_prints_in_val_and_test sample_table_str _ _ 2 "train"
                  sample (sample_metrics_well_formed _))); discriminate.
Defined.

Lemma train_epoch_end_effects_witness :
  classes_ok 2 sample /\ 2 <= 2 /\
  exists s',
    on_train_epoch_end sample_table_str sample = (Ok tt, s') /\
    stdout s' = [] /\ test_max_f1 s' = (-1)%Q.
Proof.
  split; [exact sample_classes_ok|]. split; [lia|].
  destruct (train_epoch_end_effects sample_table_str 2 sample
              sample_classes_ok (le_n 2))
    as (x & s' & _ & Hrun & _ & _ & Hout & Hbest & _).
  exists s'. split; [exact Hrun|]. split; [exact Hout|exact Hbest].
Defined.

Lemma train_epoch_end_without_change_class_witness :
  classes_ok 1 sample_one_class /\ 1 < 2 /\
  exists s',
    on_train_epoch_end sample_table_str sample_one_class
    = (Raise IndexError, s') /\
    map fst (logged s') = ["tr_oa"; "tr_prec"; "tr_recall"; "tr_f1"; "tr_miou"] /\
    is_Some (files s' !! "logs/train_metrics.txt").
Proof.
  split; [exact sample_one_class_ok|]. split; [lia|].
  destruct (train_epoch_end_without_change_class sample_table_str 1
              sample_one_class sample_one_class_ok (le_n 2))
    as (s' & Hrun & Hlog & Hfiles & _).
  exists s'. split; [exact Hrun|]. split; [by rewrite Hlog|].
  rewrite Hfiles, lookup_insert_eq. by eexists.
Defined.

Lemma validation_epoch_end_without_change_class_witness :
  classes_ok 1 sample_one_class /\ 1 < 2 /\
  exists s',
    on_validation_epoch_end sample_table_str sample_one_class
    = (Raise IndexError, s') /\
    test_max_f1 s' = (-1)%Q /\
    files s' !! "logs/test_metrics_max.txt" = None.
Proof.
  split; [exact sample_one_class_ok|]. split; [lia|].
  destruct (validation_epoch_end_without_change_class sample_table_str 1
              sample_one_class sample_one_class_ok (le_n 2))
    as (s' & Hrun & _ & Hfiles & _ & _ & Hbest).
  exists s'. split; [exact Hrun|]. split; [exact Hbest|].
  by rewrite Hfiles.
Defined.

(** ** The range of the per-class metrics *)

Lemma safe_divide_range (n d : nat) :
  n <= d -> (0 <= Metric.safe_divide n d)%Q /\ (Metric.safe_divide n d <= 1)%Q.
Proof.
  intros Hle. destruct d as [|d]; [split; discriminate|].
  unfold Metric.safe_divide, Qle. cbn [Qnum Qden].
  rewrite <- Pos.of_nat_succ, Zpos_P_of_succ_nat. lia.
Qed.

(** Every per-class precision, recall, F1 and IoU an accumulator
    computes lies in [0, 1], whatever was fed. *)
Lemma per_class_in_unit_interval (m : Metric.t) (i : nat) (x : Q) :
  Metric.compute_precision m !! i = Some x \/
  Metric.compute_recall m !! i = Some x \/
  Metric.compute_f1 m !! i = Some x \/
  Metric.compute_iou m !! i = Some x ->
  is_f1 x.
Proof.
  unfold Metric.compute_precision, Metric.compute_recall, Metric.compute_f1,
    Metric.compute_iou, Metric.per_class.
  rewrite !list_lookup_fmap.
  intros [H | [H | [H | H]]];
    destruct (seq 0 (Metric.num_classes m) !! i) as [c|]; simpl in H;
    try discriminate H; injection H as <-; apply safe_divide_range; lia.
Qed.

(** ** The test pass, in full *)

Section TestPass.

Context {Img : Type}.
Variable table_str : PrettyTable -> string.
Local Abbreviation St := (myTrain Img).
Local Abbreviation T := (M St).

Lemma fed_fields ph pairs (s s_fed : St) :
  fed ph pairs s s_fed ->
  files s_fed = files s /\ test_max_f1 s_fed = test_max_f1 s /\
  base_dir_of s_fed = base_dir_of s /\ current_epoch s_fed = current_epoch s /\
  cfg s_fed = cfg s /\ stdout s_fed = stdout s /\ logged s_fed = logged s.
Proof. intros [_ ->]. by destruct ph. Qed.

(** X15: in a harness over [C >= 2] classes whose test batches are
    valid, [test] returns a value [x] in [0, 1]; when [x] exceeds the
    best test F1 found at the start of the pass (always, when that is
    negative, as the initial [-1] is), the report of the pass is
    appended to the "max" file, the "rest" file is untouched and the
    best becomes [x]; otherwise the report is appended to the "rest"
    file and the "max" file and the best are untouched. *)
Theorem test_pass_report (C : nat) (s : St) :
  classes_ok C s -> 2 <= C -> loader_ok C s ->
  exists x s' report,
    test table_str s = (Ok x, s') /\ is_f1 x /\
    ((test_max_f1 s < 0)%Q -> (test_max_f1 s < x)%Q) /\
    ((test_max_f1 s < x)%Q ->
       test_max_f1 s' = x /\
       files s' = <[max_file s :=
                      default "" (files s !! max_file s) +:+ report]> (files s) /\
       files s' !! rest_file s = files s !! rest_file s) /\
    ((x <= test_max_f1 s)%Q ->
       test_max_f1 s' = test_max_f1 s /\
       files s' = <[rest_file s :=
                      default "" (files s !! rest_file s) +:+ report]> (files s) /\
       files s' !! max_file s = files s !! max_file s).
Proof.
  intros Hok HC Hld.
  destruct (test_ok table_str C s Hok HC Hld)
    as (pairs & s_fed & s_rep & x & _ & Hfed & Hout & Hx & Hrun).
  destruct (fed_fields _ _ _ _ Hfed) as (Hfiles & Hbest & Hbase & Hep & Hcfg & _).
  assert (Hcl : forall k, Metric.num_classes (metric Test k s_fed) = C).
  { intros k. destruct Hfed as [Hfeed _].
    rewrite (feed_classes _ _ _ (Hfeed k)). apply Hok. }
  pose proof (phase_metrics_well_formed C "test_" (test_ s_fed) Hcl) as Hwf.
  assert (Hch : change_f1_of (phase_metrics (test_ s_fed)) = Some x) by exact Hx.
  rewrite (output_test _ _ _ C x s_fed Hwf Hch) in Hout. cbv zeta in Hout.
  assert (Hf1 : is_f1 x).
  { apply (per_class_in_unit_interval (test_f1 s_fed) 1). right. right. by left. }
  exists x, (reset_phase Test s_rep).
  exists (epoch_header (current_epoch s) (epoch (cfg s)) "test"
          +:+ (table_str (report_table (phase_metrics (test_ s_fed))
                           (phase_totals "test_" (test_ s_fed))) +:+ nl)).
  split; [exact Hrun|]. split; [exact Hf1|].
  split; [intros Hneg; apply (Qlt_le_trans _ 0); [exact Hneg|apply Hf1]|].
  assert (Hmax : max_file s_fed = max_file s) by (unfold max_file; by rewrite Hbase).
  assert (Hrest : rest_file s_fed = rest_file s) by (unfold rest_file; by rewrite Hbase).
  rewrite Hbest, Hmax, Hrest in Hout.
  split; intros Hcmp.
  - apply Qgtb_true in Hcmp. rewrite Hcmp in Hout. injection Hout as <-.
    unfold report_written, printed. simpl. rewrite Hfiles, Hep, Hcfg.
    split; [reflexivity|]. rewrite append_assoc. split; [reflexivity|].
    apply lookup_insert_ne, max_rest_distinct.
  - apply Qgtb_false in Hcmp. rewrite Hcmp in Hout. injection Hout as <-.
    unfold report_written, printed. simpl. rewrite Hfiles, Hep, Hcfg, Hbest.
    split; [reflexivity|]. rewrite append_assoc. split; [reflexivity|].
    apply lookup_insert_ne. intros E. by apply (max_rest_distinct s).
Qed.

End TestPass.

Lemma test_pass_report_witness :
  classes_ok 2 sample /\ 2 <= 2 /\ loader_ok 2 sample /\
  (test_max_f1 sample < 0)%Q /\
  exists x s',
    test sample_table_str sample = (Ok x, s') /\
    test_max_f1 s' = x /\
    files s' !! "logs/test_metrics_rest.txt" = None.
Proof.
  split; [exact sample_classes_ok|]. split; [lia|].
  split; [exact sample_loader_ok|]. split; [reflexivity|].
  destruct (test_pass_report sample_table_str 2 sample sample_classes_ok
              (le_n 2) sample_loader_ok)
    as (x & s' & report & Hrun & _ & Hneg & Hup & _).
  exists x, s'. split; [exact Hrun|].
  destruct (Hup (Hneg eq_refl)) as (Hbest & _ & Hrest).
  split; [exact Hbest|exact Hrest].
Defined.

(** ** A test pass that fails *)

Section FailedTestPass.

Context {Img : Type}.
Variable table_str : PrettyTable -> string.
Local Abbreviation St := (myTrain Img).
Local Abbreviation T := (M St).

Global Instance only_accumulators_preorder (ph : Phase) :
  PreOrder (@only_accumulators Img ph).
Proof.
  split.
  - intros s. unfold only_accumulators. by destruct s, ph.
  - intros s1 s2 s3 H1 H2. unfold only_accumulators in *.
    rewrite H2, H1. by destruct ph.
Qed.

Lemma metric_call_only_accumulators ph k pred mask :
  preserves (only_accumulators ph) (metric_call ph k pred mask : T unit).
Proof.
  intros s. unfold metric_call, bind, gets, lift, modify. simpl.
  destruct (Metric.update (metric ph k s) pred mask) as [m'|e]; simpl.
  - unfold only_accumulators. by destruct ph.
  - reflexivity.
Qed.

Lemma test_batch_only_accumulators (input : Batch) :
  preserves (only_accumulators Test) (test_batch input : T unit).
Proof.
  destruct input as [[input0 input1] mask_test]. unfold test_batch, forward.
  repeat first
    [ apply metric_call_only_accumulators
    | apply (preserves_gets (only_accumulators Test))
    | apply (preserves_lift (only_accumulators Test))
    | apply (preserves_bind (only_accumulators Test)); [|intros] ].
Qed.

Lemma test_batch_evolves (input : Batch) :
  preserves evolves (test_batch input : T unit).
Proof.
  destruct input as [[input0 input1] mask_test]. unfold test_batch, forward.
  repeat evolves_step.
Qed.

(** X16: in a harness whose accumulators are all over [C] classes, a
    test pass that raises (on a batch the accumulators reject, or for
    want of a change class) has written no file, emitted nothing and
    left the best test F1 and the training and validation accumulators
    as they were. *)
Theorem failed_test_pass_writes_nothing (C : nat) (s s' : St) (e : Exn) :
  classes_ok C s ->
  test table_str s = (Raise e, s') ->
  files s' = files s /\ logged s' = logged s /\
  test_max_f1 s' = test_max_f1 s /\ tr s' = tr s /\ val s' = val s.
Proof.
  intros Hok Hrun.
  destruct (for_each (test_loader s) test_batch s) as [r s_l] eqn:Hloop.
  pose proof (preserves_for_each (only_accumulators Test) (test_loader s)
                test_batch test_batch_only_accumulators s) as Honly.
  pose proof (preserves_for_each evolves (test_loader s)
                test_batch test_batch_evolves s) as (_ & Hcl & _).
  rewrite Hloop in Honly, Hcl. simpl in Honly, Hcl.
  assert (Hfields : files s_l = files s /\ logged s_l = logged s /\
                    test_max_f1 s_l = test_max_f1 s /\ tr s_l = tr s /\
                    val s_l = val s) by (rewrite Honly; repeat split).
  assert (Hok_l : classes_ok C s_l).
  { intros ph k. rewrite (Hcl ph k). apply Hok. }
  unfold test in Hrun. erewrite bind_ok in Hrun by reflexivity.
  destruct r as [[]|e0].
  - erewrite bind_ok in Hrun by exact Hloop.
    do 5 (erewrite bind_ok in Hrun by reflexivity).
    pose proof (phase_metrics_well_formed C "test_" (test_ s_l)
                  (classes_ok_phase C Test s_l Hok_l)) as Hwf.
    destruct (le_lt_dec 2 C) as [HC|HC].
    + destruct (phase_change_f1 C (test_ s_l) (Hok_l Test F1) HC)
        as (x & Hx & Hch).
      erewrite bind_ok in Hrun by (apply (output_test _ _ _ C x); done).
      do 5 (erewrite bind_ok in Hrun by reflexivity).
      erewrite bind_ok in Hrun by reflexivity.
      erewrite index_ok in Hrun by exact Hx. discriminate Hrun.
    + destruct (phase_no_change_class C (test_ s_l) (Hok_l Test F1) HC)
        as (_ & Hch).
      erewrite bind_raise in Hrun
        by (apply (output_test_raise _ _ _ C); [exact Hwf|exact Hch]).
      injection Hrun as _ <-. unfold printed. simpl. exact Hfields.
  - erewrite bind_raise in Hrun by exact Hloop.
    injection Hrun as _ <-. exact Hfields.
Qed.

End FailedTestPass.

Lemma failed_test_pass_writes_nothing_witness :
  classes_ok 2 sample_bad_loader /\
  (test sample_table_str sample_bad_loader).1 = Raise ValueError /\
  files (test sample_table_str sample_bad_loader).2 = files sample_bad_loader /\
  test_max_f1 (test sample_table_str sample_bad_loader).2 = (-1)%Q.
Proof.
  assert (Hok : classes_ok 2 sample_bad_loader) by (intros [] []; reflexivity).
  split; [exact Hok|]. split; [reflexivity|].
  assert (Hrun : test sample_table_str sample_bad_loader
                 = (Raise ValueError,
                    (test sample_table_str sample_bad_loader).2)).
  { assert (H1 : (test sample_table_str sample_bad_loader).1
                 = Raise ValueError) by reflexivity.
    destruct (test sample_table_str sample_bad_loader) as [r s'].
    simpl in *. by subst r. }
  destruct (failed_test_pass_writes_nothing sample_table_str 2
              sample_bad_loader _ ValueError Hok Hrun) as (Hf & _ & Hb & _).
  split; [exact Hf|exact Hb].
Defined.
